(** * Support tickets: a verified model of [streamlit_app.py]

    The application keeps support tickets in one SQLite table and drives it
    from a Streamlit page: a form that creates tickets, a grid whose edits
    are written back, and a reload of the table after every write.

    The development embeds the data-access functions and the two event
    handlers of the page (form submission, edit reconciliation) as programs
    of a small state-and-exception monad, and proves the properties of the
    specification about them.

    Conventions of the model:
    - a Python [str] is a [string]; each [ascii] stands for the code point of
      the same number (the code points below 256);
    - a Python [int] is a [Z]; an SQLite INTEGER is a [Z] kept within 64 bits
      by the conversions that produce it;
    - the table [tickets] is the list of its rows in rowid (insertion) order;
    - every data-access function opens a connection, runs one statement and
      commits; the storage engine may refuse any of these connections, which
      the model reads from a schedule of outcomes held in the state: [None]
      for a call that goes through, [Some f] for one that fails, where [f]
      says whether [sqlite3.connect] or the statement (or its commit) fails,
      with the message of the [sqlite3.OperationalError]. *)

From Stdlib Require Import ZArith NArith List String Ascii Bool Lia.
From Stdlib Require Import Sorted Permutation.
From Stdlib Require Import Decimal DecimalString DecimalPos.
From Stdlib Require DecimalZ.
Import ListNotations.

Local Open Scope string_scope.
Local Open Scope Z_scope.
Local Open Scope list_scope.

(** ** Python strings *)

Module PyStr.

(** [str.isspace] on one character, for the code points below 256:
    U+0009..U+000D, U+001C..U+001F, U+0020, U+0085 and U+00A0. *)
Definition isspace (c : ascii) : bool :=
  let n := nat_of_ascii c in
  ((9 <=? n) && (n <=? 13) || (28 <=? n) && (n <=? 32)
   || (n =? 133) || (n =? 160))%nat.

(** [s.lstrip()] *)
Fixpoint lstrip (s : string) : string :=
  match s with
  | EmptyString => EmptyString
  | String c s' => if isspace c then lstrip s' else s
  end.

(** [s.rstrip()] *)
Fixpoint rstrip (s : string) : string :=
  match s with
  | EmptyString => EmptyString
  | String c s' =>
      match rstrip s' with
      | EmptyString => if isspace c then EmptyString else String c EmptyString
      | t => String c t
      end
  end.

(** [s.strip()] *)
Definition strip (s : string) : string := rstrip (lstrip s).

(** The truth value of a string: [not s] holds of the empty string only. *)
Definition truthy (s : string) : bool :=
  match s with
  | EmptyString => false
  | String _ _ => true
  end.

(** Every character of [s] is white space (true of the empty string). *)
Fixpoint blank (s : string) : bool :=
  match s with
  | EmptyString => true
  | String c s' => isspace c && blank s'
  end.

(** [str(n)], which is also how an f-string formats an [int]: decimal
    digits without leading zeros, preceded by [-] when negative. *)
Definition str_of_int (n : Z) : string :=
  NilZero.string_of_int (Z.to_int n).

End PyStr.

(** ** The SQL functions used by the statements *)

Module Sqlite.

Definition LARGEST_INT64 : Z := 9223372036854775807.
Definition SMALLEST_INT64 : Z := -9223372036854775808.

(** Saturation of an integer that does not fit 64 bits. *)
Definition clamp64 (z : Z) : Z :=
  Z.max SMALLEST_INT64 (Z.min LARGEST_INT64 z).

(** White space as SQLite sees it: space, \t, \n, \v, \f, \r. *)
Definition sqlite3Isspace (c : ascii) : bool :=
  let n := nat_of_ascii c in
  ((n =? 32) || (9 <=? n) && (n <=? 13))%nat.

Definition digit_of (c : ascii) : option N :=
  let n := nat_of_ascii c in
  if ((48 <=? n) && (n <=? 57))%nat then Some (N.of_nat (n - 48)) else None.

Fixpoint skip_space (s : string) : string :=
  match s with
  | EmptyString => EmptyString
  | String c s' => if sqlite3Isspace c then skip_space s' else s
  end.

(** The longest run of decimal digits at the start of [s], accumulated
    from the left. *)
Fixpoint atoi_digits (acc : N) (s : string) : N :=
  match s with
  | EmptyString => acc
  | String c s' =>
      match digit_of c with
      | Some d => atoi_digits (acc * 10 + d) s'
      | None => acc
      end
  end.

(** [CAST(x AS INTEGER)] of a TEXT value: leading white space is skipped,
    then the longest prefix that reads as an optionally signed decimal
    integer is converted; with no such prefix the result is 0; a value
    outside 64 bits saturates. *)
Definition cast_integer (x : string) : Z :=
  match skip_space x with
  | EmptyString => 0
  | String c s' =>
      if Ascii.eqb c "-" then clamp64 (- Z.of_N (atoi_digits 0 s'))
      else if Ascii.eqb c "+" then clamp64 (Z.of_N (atoi_digits 0 s'))
      else clamp64 (Z.of_N (atoi_digits 0 (String c s')))
  end.

(** [SUBSTR] reads a text as far as its first U+0000. It steps over the
    characters before the start position, [while( *z && p1 )], staying at
    a U+0000 or at the end when it meets one first. *)
Fixpoint skip_chars (n : nat) (z : string) : string :=
  match n, z with
  | O, _ => z
  | S _, EmptyString => EmptyString
  | S n', String c z' => if Ascii.eqb c Ascii.zero then z else skip_chars n' z'
  end.

(** The characters from where it stands to the first U+0000 or the end. *)
Fixpoint until_nul (z : string) : string :=
  match z with
  | EmptyString => EmptyString
  | String c z' => if Ascii.eqb c Ascii.zero then EmptyString
                   else String c (until_nul z')
  end.

(** [SUBSTR(x, y)] for a start position [y >= 1]: the characters of [x]
    from the [y]-th (counted from 1) on, as far as the text is read. *)
Definition substr (x : string) (y : nat) : string :=
  until_nul (skip_chars (y - 1) x).

(** The aggregate [MAX]: NULL (here [None]) over no rows. *)
Fixpoint sql_max (l : list Z) : option Z :=
  match l with
  | [] => None
  | x :: l' =>
      match sql_max l' with
      | None => Some x
      | Some m => Some (Z.max x m)
      end
  end.

End Sqlite.

(** ** Data model *)

(** A row of the table [tickets]. [created_at] is the value that
    [DEFAULT CURRENT_TIMESTAMP] gave the row. SQLite keeps it as the text
    YYYY-MM-DD HH:MM:SS, whose order is the order of the instants; the
    model keeps the instant, as a count of seconds. *)
Record Row : Type := mkRow {
  id : string;
  issue : string;
  status : string;
  priority : string;
  date_submitted : string;
  created_at : Z
}.

(** The dictionary [ticket_data], and a row of the data frames that
    [load_tickets_from_db] returns: the columns ID, Issue, Status, Priority
    and "Date Submitted". *)
Record Ticket : Type := mkTicket {
  ID : string;
  Issue : string;
  Status : string;
  Priority : string;
  Date_Submitted : string
}.

(** A data frame with the default index 0, 1, ...: its rows in order. *)
Definition DataFrame : Type := list Ticket.

(** The exceptions that reach the handlers. [DatabaseError msg] is the
    [pandas.errors.DatabaseError] in which [pd.read_sql_query] wraps the
    error of a query that fails; its text is "Execution failed on sql",
    the query, and the message [msg] of the wrapped error.
    [RerunException] is how [st.rerun()] leaves the script; it derives
    from [BaseException], not from [Exception]. *)
Inductive exn : Type :=
| IntegrityError (msg : string)
| OperationalError (msg : string)
| DatabaseError (msg : string)
| IndexError (msg : string)
| RerunException.

(** How the storage fails a call: at [sqlite3.connect], or when the
    statement runs or is committed. [msg] is the message of the
    [sqlite3.OperationalError]. *)
Inductive Failure : Type :=
| ConnectFails (msg : string)
| StatementFails (msg : string).

(** What a function that uses [sqlite3] itself raises on a failure. *)
Definition sqlite3_error (f : Failure) : exn :=
  match f with
  | ConnectFails msg => OperationalError msg
  | StatementFails msg => OperationalError msg
  end.

(** What [load_tickets_from_db] raises: the error of [sqlite3.connect] as
    it is, the error of the query wrapped by [pd.read_sql_query]. *)
Definition read_sql_error (f : Failure) : exn :=
  match f with
  | ConnectFails msg => OperationalError msg
  | StatementFails msg => DatabaseError msg
  end.

(** [isinstance(e, Exception)] *)
Definition is_Exception (e : exn) : bool :=
  match e with
  | RerunException => false
  | _ => true
  end.

(** The messages of the page. Their texts in the source are
    - [MsgEmptyIssue]: "Por favor describe el problema antes de enviar el ticket"
    - [MsgSaved]: "Ticket guardado en la base de datos!"
    - [MsgSaveError e]: "Error al guardar el ticket: " followed by [str(e)]
    - [MsgChangesSaved]: "Cambios guardados en la base de datos!"
    - [MsgUpdateError e]: "Error al actualizar: " followed by [str(e)]. *)
Inductive Msg : Type :=
| MsgEmptyIssue
| MsgSaved
| MsgSaveError (e : exn)
| MsgChangesSaved
| MsgUpdateError (e : exn).

(** What a handler puts on the page. *)
Inductive Output : Type :=
| st_error (m : Msg)
| st_success (m : Msg)
| st_dataframe (df : DataFrame).

(** The calls of the data-access functions, in the order they are made. *)
Inductive Call : Type :=
| CallNextNumber
| CallSave (ticket_data : Ticket)
| CallLoad
| CallUpdate (ticket_id new_status new_priority : string).

(** The state a run of the script works on. *)
Record State : Type := mkState {
  tickets : list Row;            (* the table, in rowid order *)
  storage : list (option Failure); (* outcomes of the next connections *)
  calls : list Call;             (* data-access calls made so far *)
  session_df : DataFrame;        (* st.session_state.df *)
  page : list Output             (* what was displayed so far *)
}.

Definition with_tickets (t : list Row) (s : State) : State :=
  mkState t (storage s) (calls s) (session_df s) (page s).
Definition with_storage (f : list (option Failure)) (s : State) : State :=
  mkState (tickets s) f (calls s) (session_df s) (page s).
Definition with_calls (c : list Call) (s : State) : State :=
  mkState (tickets s) (storage s) c (session_df s) (page s).
Definition with_session_df (df : DataFrame) (s : State) : State :=
  mkState (tickets s) (storage s) (calls s) df (page s).
Definition with_page (p : list Output) (s : State) : State :=
  mkState (tickets s) (storage s) (calls s) (session_df s) p.

(** ** The monad of the script: state, and exceptions that keep the state *)

Inductive Result (A : Type) : Type :=
| Ok (a : A)
| Raise (e : exn).
Arguments Ok {A} a.
Arguments Raise {A} e.

Definition M (A : Type) : Type := State -> Result A * State.

Definition ret {A} (a : A) : M A := fun s => (Ok a, s).

Definition bind {A B} (m : M A) (k : A -> M B) : M B :=
  fun s =>
    match m s with
    | (Ok a, s') => k a s'
    | (Raise e, s') => (Raise e, s')
    end.

Definition raise {A} (e : exn) : M A := fun s => (Raise e, s).

(** [try: body  except Exception as e: handler e] *)
Definition try_except {A} (body : M A) (handler : exn -> M A) : M A :=
  fun s =>
    match body s with
    | (Raise e, s') => if is_Exception e then handler e s' else (Raise e, s')
    | r => r
    end.

Declare Scope py_scope.
Delimit Scope py_scope with py.
Notation "x <- m ;; k" := (bind m (fun x => k))
  (at level 61, m at next level, right associativity) : py_scope.
Notation "m ;; k" := (bind m (fun _ => k))
  (at level 61, right associativity) : py_scope.
Local Open Scope py_scope.

Definition display (o : Output) : M unit :=
  fun s => (Ok tt, with_page (page s ++ [o])%list s).

Definition get_session_df : M DataFrame := fun s => (Ok (session_df s), s).
Definition set_session_df (df : DataFrame) : M unit :=
  fun s => (Ok tt, with_session_df df s).

(** [st.rerun()] *)
Definition st_rerun {A} : M A := raise RerunException.

(** ** The statements, on the table *)

Module Sql.

Import Sqlite.

(** [INSERT INTO tickets (id, issue, status, priority, date_submitted)
    VALUES (?, ?, ?, ?, ?)] at time [now]. [id] is the primary key: a row
    with the same id makes the statement fail and the table stays as it
    was; otherwise the row is added, [created_at] taking its default. *)
Definition insert (now : Z) (ticket_data : Ticket) (rows : list Row)
  : exn + list Row :=
  if existsb (fun r => String.eqb (id r) (ID ticket_data)) rows
  then inl (IntegrityError "UNIQUE constraint failed: tickets.id")
  else inr (rows ++ [mkRow (ID ticket_data) (Issue ticket_data)
                           (Status ticket_data) (Priority ticket_data)
                           (Date_Submitted ticket_data) now])%list.

(** [UPDATE tickets SET status = ?, priority = ? WHERE id = ?] *)
Definition update (new_status new_priority ticket_id : string)
  (rows : list Row) : list Row :=
  map (fun r =>
         if String.eqb (id r) ticket_id
         then mkRow (id r) (issue r) new_status new_priority
                    (date_submitted r) (created_at r)
         else r) rows.

(** [ORDER BY created_at DESC]: rows that tie keep their rowid order. *)
Fixpoint insert_desc (r : Row) (sorted : list Row) : list Row :=
  match sorted with
  | [] => [r]
  | x :: sorted' =>
      if created_at x <=? created_at r then r :: sorted
      else x :: insert_desc r sorted'
  end.

Fixpoint order_by_created_at_desc (rows : list Row) : list Row :=
  match rows with
  | [] => []
  | r :: rows' => insert_desc r (order_by_created_at_desc rows')
  end.

(** The column list of the SELECT of [load_tickets_from_db]. *)
Definition select_columns (r : Row) : Ticket :=
  mkTicket (id r) (issue r) (status r) (priority r) (date_submitted r).

(** [SELECT id as ID, ... FROM tickets ORDER BY created_at DESC] *)
Definition select_all (rows : list Row) : DataFrame :=
  map select_columns (order_by_created_at_desc rows).

(** [CAST(SUBSTR(id, 8) AS INTEGER)] of one row. *)
Definition suffix (r : Row) : Z := cast_integer (substr (id r) 8).

(** [SELECT MAX(CAST(SUBSTR(id, 8) AS INTEGER)) FROM tickets] *)
Definition max_suffix (rows : list Row) : option Z :=
  sql_max (map suffix rows).

End Sql.

(** ** The data-access functions *)

(** [sqlite3.connect('tickets.db')] and the statement and commit that
    follow, as far as they can fail on their own: the call is recorded and
    the next scheduled outcome is consumed. A refused call raises, with
    the exception [error] gives for the failure, and leaves the table as
    it was. *)
Definition storage_call (error : Failure -> exn) (c : Call) : M unit :=
  fun s =>
    let s1 := with_calls (calls s ++ [c])%list s in
    match storage s with
    | [] => (Ok tt, s1)
    | None :: rest => (Ok tt, with_storage rest s1)
    | Some f :: rest => (Raise (error f), with_storage rest s1)
    end.

(** The functions that use [sqlite3] themselves. *)
Definition connect (c : Call) : M unit := storage_call sqlite3_error c.

Definition save_ticket_to_db (now : Z) (ticket_data : Ticket) : M unit :=
  connect (CallSave ticket_data) ;;
  fun s =>
    match Sql.insert now ticket_data (tickets s) with
    | inl e => (Raise e, s)
    | inr rows => (Ok tt, with_tickets rows s)
    end.

Definition load_tickets_from_db : M DataFrame :=
  storage_call read_sql_error CallLoad ;;
  fun s => (Ok (Sql.select_all (tickets s)), s).

Definition update_ticket_in_db (ticket_id new_status new_priority : string)
  : M unit :=
  connect (CallUpdate ticket_id new_status new_priority) ;;
  fun s =>
    (Ok tt, with_tickets (Sql.update new_status new_priority ticket_id
                            (tickets s)) s).

Definition get_next_ticket_number : M Z :=
  connect CallNextNumber ;;
  fun s =>
    match Sql.max_suffix (tickets s) with
    | None => (Ok 1001, s)
    | Some result => (Ok (result + 1), s)
    end.

(** ** The handlers of the page *)

(** The form of the page: the text area, the select box, and the values
    the clocks give during the run ([today] from [datetime.now()], [now]
    from CURRENT_TIMESTAMP). *)
Record Submission : Type := mkSubmission {
  sub_issue : string;
  sub_priority : string;
  sub_today : string;
  sub_now : Z
}.

(** [f"TICKET-{ticket_number}"] *)
Definition ticket_id_of (ticket_number : Z) : string :=
  ("TICKET-" ++ PyStr.str_of_int ticket_number)%string.

(** The body of [if submitted:]. *)
Definition submit_handler (f : Submission) : M unit :=
  if negb (PyStr.truthy (PyStr.strip (sub_issue f))) then
    display (st_error MsgEmptyIssue)
  else
    ticket_number <- get_next_ticket_number ;;
    let today := sub_today f in
    let ticket_data :=
      mkTicket (ticket_id_of ticket_number) (sub_issue f) "Open"
               (sub_priority f) today in
    try_except
      (save_ticket_to_db (sub_now f) ticket_data ;;
       display (st_success MsgSaved) ;;
       let df_new := [ticket_data] in
       display (st_dataframe df_new) ;;
       df <- load_tickets_from_db ;;
       set_session_df df ;;
       st_rerun)
      (fun e => display (st_error (MsgSaveError e))).

(** [df.iloc[idx]] *)
Definition iloc (df : DataFrame) (idx : nat) : M Ticket :=
  match nth_error df idx with
  | Some row => ret row
  | None => raise (IndexError "single positional indexer is out-of-bounds")
  end.

Definition Ticket_eqb (a b : Ticket) : bool :=
  String.eqb (ID a) (ID b) && String.eqb (Issue a) (Issue b)
  && String.eqb (Status a) (Status b) && String.eqb (Priority a) (Priority b)
  && String.eqb (Date_Submitted a) (Date_Submitted b).

(** [edited_df.equals(df)] *)
Fixpoint df_equals (a b : DataFrame) : bool :=
  match a, b with
  | [], [] => true
  | x :: a', y :: b' => Ticket_eqb x y && df_equals a' b'
  | _, _ => false
  end.

(** [for idx, row in edited_df.iterrows(): ...], from index [idx] on. *)
Fixpoint reconcile_loop (idx : nat) (rows : DataFrame) : M unit :=
  match rows with
  | [] => ret tt
  | row :: rest =>
      df <- get_session_df ;;
      original_row <- iloc df idx ;;
      (if negb (String.eqb (Status row) (Status original_row))
          || negb (String.eqb (Priority row) (Priority original_row))
       then update_ticket_in_db (ID row) (Status row) (Priority row)
       else ret tt) ;;
      reconcile_loop (S idx) rest
  end.

(** The block under "Check for changes and update database", for the data
    frame [edited_df] that the editor returned. *)
Definition reconcile (edited_df : DataFrame) : M unit :=
  df <- get_session_df ;;
  if negb (df_equals edited_df df) then
    try_except
      (reconcile_loop 0 edited_df ;;
       display (st_success MsgChangesSaved) ;;
       set_session_df edited_df)
      (fun e => display (st_error (MsgUpdateError e)))
  else ret tt.

(** Successive submissions of the form, each in its own run of the script. *)
Fixpoint run_submissions (fs : list Submission) (s : State) : State :=
  match fs with
  | [] => s
  | f :: fs' => run_submissions fs' (snd (submit_handler f s))
  end.

(** A state with the table [rows], a storage that accepts every call, and
    nothing displayed or recorded yet. *)
Definition quiet (rows : list Row) (df : DataFrame) : State :=
  mkState rows [] [] df [].

(** ** Vocabulary of the statements below *)

(** What the storage answers to the next call. *)
Definition next_outcome (s : State) : option Failure := hd None (storage s).

(** The state once the storage has answered the call [c]. *)
Definition after_call (c : Call) (s : State) : State :=
  with_storage (tl (storage s)) (with_calls (calls s ++ [c]) s).

(** The storage lets the next [k] calls through. *)
Fixpoint accepting (k : nat) (outcomes : list (option Failure)) : Prop :=
  match k, outcomes with
  | O, _ => True
  | S _, [] => True
  | S k', None :: rest => accepting k' rest
  | S _, Some _ :: _ => False
  end.

(** The numeric suffix of an id, as a specification: what SQLite documents
    for [CAST(SUBSTR(id, 8) AS INTEGER)], written with functions on lists
    and the decimal numbers of the library, apart from the functions of
    the model. *)
Module Reading.











End Reading.

(** A listed record shows the columns of a row. *)
Definition shown_as (r : Row) (t : Ticket) : Prop :=
  ID t = id r /\ Issue t = issue r /\ Status t = status r
  /\ Priority t = priority r /\ Date_Submitted t = date_submitted r.

(** The number that [get_next_ticket_number] reads off a table. *)
Definition next_number (rows : list Row) : Z :=
  match Sql.max_suffix rows with
  | None => 1001
  | Some result => result + 1
  end.

(** The record the form builds for a submission, over the table [rows]. *)
Definition new_ticket (f : Submission) (rows : list Row) : Ticket :=
  mkTicket (ticket_id_of (next_number rows)) (sub_issue f) "Open"
           (sub_priority f) (sub_today f).

(** The row the INSERT adds for that record. *)
Definition new_row (f : Submission) (rows : list Row) : Row :=
  mkRow (ticket_id_of (next_number rows)) (sub_issue f) "Open"
        (sub_priority f) (sub_today f) (sub_now f).

(** The id is the primary key of some row. *)
Definition id_taken (ticket_id : string) (rows : list Row) : bool :=
  existsb (fun r => String.eqb (id r) ticket_id) rows.



(** The storage lets every call through. *)
Definition reliable (outcomes : list (option Failure)) : Prop :=
  Forall (fun o => o = None) outcomes.

(** The issue text passes the check of the form. *)
Definition nonblank (f : Submission) : Prop :=
  PyStr.blank (sub_issue f) = false.

(** [a] may come before [b] in a listing: it is not older. *)
Definition newest_first (a b : Row) : Prop := created_at b <= created_at a.

(** What Update Ticket may do to one row [r], giving [r']. *)
Definition updated_row (ticket_id new_status new_priority : string)
  (r r' : Row) : Prop :=
  id r' = id r /\ issue r' = issue r
  /\ date_submitted r' = date_submitted r /\ created_at r' = created_at r
  /\ (id r = ticket_id -> status r' = new_status /\ priority r' = new_priority)
  /\ (id r <> ticket_id -> r' = r).

(** The edit of a row touched its status or its priority. *)
Definition edited (pair : Ticket * Ticket) : bool :=
  let (row, original_row) := pair in
  negb (String.eqb (Status row) (Status original_row))
  || negb (String.eqb (Priority row) (Priority original_row)).

(** One Update Ticket call for an edited row. *)
Definition update_call (pair : Ticket * Ticket) : Call :=
  let (row, _) := pair in CallUpdate (ID row) (Status row) (Priority row).

(** ** The rest of the page *)

(** The load at the top of the script:
    [if "df" not in st.session_state or st.button(...)]. The argument says
    whether that test holds in the run. *)
Definition load_session (requested : bool) : M unit :=
  if requested then
    df <- load_tickets_from_db ;;
    set_session_df df
  else ret tt.

(** [len(edited_df[edited_df.Status == value])] *)
Definition count_status (value : string) (df : DataFrame) : nat :=
  List.length (filter (fun row => String.eqb (Status row) value) df).

(** The three metrics shown side by side. *)
Record Metrics : Type := mkMetrics {
  num_open_tickets : nat;
  num_in_progress : nat;
  num_closed : nat
}.

Definition statistics (edited_df : DataFrame) : Metrics :=
  mkMetrics (count_status "Open" edited_df)
            (count_status "In Progress" edited_df)
            (count_status "Closed" edited_df).

(** The section "Existing tickets", for the function [editor] that gives
    what [st.data_editor] returns on the frame it is shown. The value is
    the number written under the header and, when there are tickets, the
    metrics computed from the edited frame. *)
Definition existing_tickets (editor : DataFrame -> DataFrame)
  : M (nat * option Metrics) :=
  df <- get_session_df ;;
  let number := List.length df in
  if (0 <? number)%nat then
    let edited_df := editor df in
    reconcile edited_df ;;
    ret (number, Some (statistics edited_df))
  else ret (number, None).

(** What the user and the framework bring to one run of the script. *)
Record Interaction : Type := mkInteraction {
  load_requested : bool;
  submitted : option Submission;
  data_editor : DataFrame -> DataFrame
}.

(** One run of the script, from the load of the session on. An exception
    that no handler catches ends the run, and so does [st.rerun()]. *)
Definition script (i : Interaction) : M (nat * option Metrics) :=
  load_session (load_requested i) ;;
  match submitted i with
  | Some f => submit_handler f
  | None => ret tt
  end ;;
  existing_tickets (data_editor i).

(** Successive runs of the script. *)
Fixpoint run_script (interactions : list Interaction) (s : State) : State :=
  match interactions with
  | [] => s
  | i :: rest => run_script rest (snd (script i s))
  end.

(** ** Vocabulary of the further statements *)

(** The session shows the table as a listing would return it now. *)
Definition in_sync (s : State) : Prop :=
  session_df s = Sql.select_all (tickets s).

(** The columns the editor has disabled are those of the original row. *)
Definition same_fixed_columns (original row : Ticket) : Prop :=
  ID row = ID original /\ Issue row = Issue original
  /\ Date_Submitted row = Date_Submitted original.

(** An editor that keeps the rows in place and the disabled columns as
    they are. *)
Definition respects_disabled (editor : DataFrame -> DataFrame) : Prop :=
  forall df, Forall2 same_fixed_columns df (editor df).

(** What never changes of a row once it is stored. *)
Definition fixed_part (r : Row) : string * string * string * Z :=
  (id r, issue r, date_submitted r, created_at r).

(** The storage works, the ids are unique and the session shows the
    table as listed. *)
Definition well_kept (s : State) : Prop :=
  reliable (storage s) /\ NoDup (map id (tickets s)) /\ in_sync s.

(** [len(rows[rows.status == value])], on the table. *)
Definition count_rows (value : string) (rows : list Row) : nat :=
  List.length (filter (fun r => String.eqb (status r) value) rows).



(** The program [m] keeps the property [P] of the state, however it ends. *)
Definition preserves {A : Type} (P : State -> Prop) (m : M A) : Prop :=
  forall s, P s -> P (snd (m s)).

(** The values the editor offers for the status. *)
Definition status_options : list string := ["Open"; "In Progress"; "Closed"].

(** The same row of the frame with another status and priority, when its
    ID is [ticket_id]. *)
Definition set_ticket (new_status new_priority ticket_id : string)
  (t : Ticket) : Ticket :=
  if String.eqb (ID t) ticket_id
  then mkTicket (ID t) (Issue t) new_status new_priority (Date_Submitted t)
  else t.

(** The row of the table that holds a record, stored at time [now]. *)
Definition row_of (now : Z) (t : Ticket) : Row :=
  mkRow (ID t) (Issue t) (Status t) (Priority t) (Date_Submitted t) now.

(** Projections of updated states. *)
Ltac state_simpl :=
  unfold next_outcome, after_call, with_tickets, with_storage, with_calls,
    with_session_df, with_page;
  cbn [tickets storage calls session_df page].

(** Case analysis on the answer of the storage that the goal waits for. *)
Ltac destruct_outcome :=
  match goal with
  | |- context [match next_outcome ?x with _ => _ end] =>
      destruct (next_outcome x)
  end.

(** ** Runs on concrete inputs *)

Example strip_example : PyStr.strip "  printer broken  " = "printer broken".
Proof. reflexivity. Qed.

Example cast_examples :
  Sqlite.cast_integer "1001" = 1001 /\ Sqlite.cast_integer " -12abc" = -12
  /\ Sqlite.cast_integer "abc" = 0 /\ Sqlite.cast_integer "+7" = 7
  /\ Sqlite.cast_integer "9223372036854775808" = 9223372036854775807.
Proof. repeat split; reflexivity. Qed.

Example substr_examples :
  Sqlite.substr "TICKET-1001" 8 = "1001"
  /\ Sqlite.substr "short" 8 = ""
  /\ Sqlite.substr ("TICK" ++ String Ascii.zero "ET-5") 8 = ""
  /\ Sqlite.substr ("TICKET-7" ++ String Ascii.zero " 9") 8 = "7".
Proof. repeat split; reflexivity. Qed.

Example next_number_examples :
  next_number [mkRow ("TICK" ++ String Ascii.zero "ET-5") "a" "Open" "Low"
                     "d" 1] = 1
  /\ next_number [mkRow ("TICKE" ++ String Ascii.zero "T41") "a" "Open" "Low"
                        "d" 1] = 1
  /\ next_number [mkRow ("TICKET-7" ++ String Ascii.zero " 9") "a" "Open"
                        "Low" "d" 1] = 8
  /\ next_number [mkRow "TICKET- 12abc" "a" "Open" "Low" "d" 1;
                  mkRow "ticket" "b" "Open" "Low" "d" 2] = 13.
Proof. repeat split; reflexivity. Qed.

Example ticket_id_example : ticket_id_of 1001 = "TICKET-1001".
Proof. reflexivity. Qed.

Example update_then_list :
  fst (bind (update_ticket_in_db "TICKET-1001" "Closed" "High")
         (fun _ => load_tickets_from_db)
         (quiet [mkRow "TICKET-1001" "printer broken" "Open" "Medium"
                       "2024-05-01" 10] []))
  = Ok [mkTicket "TICKET-1001" "printer broken" "Closed" "High" "2024-05-01"].
Proof. reflexivity. Qed.

Example newest_listed_first :
  map ID (Sql.select_all
            [mkRow "TICKET-1001" "a" "Open" "Low" "2024-05-01" 10;
             mkRow "TICKET-1002" "b" "Open" "Low" "2024-05-01" 30;
             mkRow "TICKET-1003" "c" "Open" "Low" "2024-05-01" 20])
  = ["TICKET-1002"; "TICKET-1003"; "TICKET-1001"].
Proof. reflexivity. Qed.

Example primary_key_conflict :
  submit_handler (mkSubmission "again" "Low" "2024-05-01" 10)
    (quiet [mkRow "TICKET-9223372036854775807" "a" "Open" "Low" "d" 1;
            mkRow "TICKET-9223372036854775808" "b" "Open" "Low" "d" 2] [])
  = (Ok tt,
     mkState [mkRow "TICKET-9223372036854775807" "a" "Open" "Low" "d" 1;
              mkRow "TICKET-9223372036854775808" "b" "Open" "Low" "d" 2]
       []
       [CallNextNumber;
        CallSave (mkTicket "TICKET-9223372036854775808" "again" "Open" "Low"
                           "2024-05-01")]
       []
       [st_error (MsgSaveError
                    (IntegrityError "UNIQUE constraint failed: tickets.id"))]).
Proof. reflexivity. Qed.

Example second_update_refused :
  let original := [mkTicket "TICKET-1002" "b" "Open" "High" "2024-05-02";
                   mkTicket "TICKET-1001" "a" "Open" "Low" "2024-05-01"] in
  let edited_df := [mkTicket "TICKET-1002" "b" "Closed" "High" "2024-05-02";
                    mkTicket "TICKET-1001" "a" "Closed" "Low" "2024-05-01"] in
  reconcile edited_df
    (mkState [mkRow "TICKET-1001" "a" "Open" "Low" "2024-05-01" 10;
              mkRow "TICKET-1002" "b" "Open" "High" "2024-05-02" 20]
       [None; Some (StatementFails "disk I/O error")] [] original [])
  = (Ok tt,
     mkState [mkRow "TICKET-1001" "a" "Open" "Low" "2024-05-01" 10;
              mkRow "TICKET-1002" "b" "Closed" "High" "2024-05-02" 20]
       []
       [CallUpdate "TICKET-1002" "Closed" "High";
        CallUpdate "TICKET-1001" "Closed" "Low"]
       original
       [st_error (MsgUpdateError (OperationalError "disk I/O error"))]).
Proof. reflexivity. Qed.

Example first_two_tickets :
  map id (tickets (run_submissions
                     [mkSubmission "printer broken" "Medium" "2024-05-01" 10;
                      mkSubmission "no network" "High" "2024-05-01" 20]
                     (quiet [] [])))
  = ["TICKET-1001"; "TICKET-1002"].
Proof. reflexivity. Qed.

(** ** Facts about the string functions *)

Section StringFacts.

Import PyStr.

Lemma rstrip_empty_iff (s : string) :
  rstrip s = EmptyString <-> blank s = true.
Proof.
  induction s as [|c s IH]; simpl.
  - tauto.
  - destruct (rstrip s) eqn:E.
    + destruct (isspace c); simpl.
      * tauto.
      * split; discriminate.
    + split; [discriminate|].
      intros H. apply andb_true_iff in H. destruct H as [_ H].
      apply IH in H. discriminate.
Qed.

Lemma blank_lstrip (s : string) : blank (lstrip s) = blank s.
Proof.
  induction s as [|c s IH]; simpl; [reflexivity|].
  destruct (isspace c) eqn:E; simpl; [exact IH|].
  rewrite E. reflexivity.
Qed.

(** [not issue.strip()] says exactly that [issue] is all white space. *)
Lemma truthy_strip (s : string) : truthy (strip s) = negb (blank s).
Proof.
  unfold strip. rewrite <- (blank_lstrip s).
  destruct (rstrip (lstrip s)) eqn:E; simpl.
  - apply rstrip_empty_iff in E. rewrite E. reflexivity.
  - destruct (blank (lstrip s)) eqn:B; [|reflexivity].
    apply rstrip_empty_iff in B. congruence.
Qed.

End StringFacts.

(** ** Reading back a formatted ticket number *)

Section CastFacts.

Import Sqlite.

(** The digits of [d] read from the left continue the accumulator. *)
Lemma atoi_digits_uint (d : uint) (acc : N) :
  atoi_digits acc (NilEmpty.string_of_uint d)
  = (acc * 10 ^ DecimalPos.Unsigned.usize d + DecimalPos.Unsigned.of_lu (rev d))%N.
Proof.
  revert acc.
  induction d as [|d IH|d IH|d IH|d IH|d IH|d IH|d IH|d IH|d IH|d IH];
    intros acc;
    [ simpl; lia | .. ];
    cbn [NilEmpty.string_of_uint atoi_digits];
    match goal with
    | |- context [digit_of ?c] =>
        let v := eval compute in (digit_of c) in change (digit_of c) with v
    end;
    cbv iota;
    rewrite IH; unfold rev; cbn [revapp];
    rewrite (DecimalPos.Unsigned.of_lu_revapp d (_ Nil));
    cbn [DecimalPos.Unsigned.usize DecimalPos.Unsigned.of_lu];
    rewrite N.pow_succ_r'; fold (rev d); ring.
Qed.

Lemma atoi_digits_pos (p : positive) :
  atoi_digits 0 (NilEmpty.string_of_uint (Pos.to_uint p)) = Npos p.
Proof.
  rewrite atoi_digits_uint, <- DecimalPos.Unsigned.of_uint_alt, DecimalPos.Unsigned.of_to.
  reflexivity.
Qed.

(** A printed positive number starts with a digit. *)
Lemma string_of_uint_head (d : uint) :
  d <> Nil ->
  exists c rest, NilEmpty.string_of_uint d = String c rest
                 /\ digit_of c <> None.
Proof.
  destruct d; intros H; [congruence | ..];
    simpl; eexists; eexists; (split; [reflexivity|]); discriminate.
Qed.

Lemma digit_not_space_or_sign (c : ascii) :
  digit_of c <> None ->
  sqlite3Isspace c = false /\ Ascii.eqb c "-" = false
  /\ Ascii.eqb c "+" = false.
Proof.
  destruct c as [[|] [|] [|] [|] [|] [|] [|] [|]]; intros H;
    try (exfalso; apply H; reflexivity); repeat split; reflexivity.
Qed.

Lemma cast_integer_digits (d : uint) :
  d <> Nil ->
  cast_integer (NilEmpty.string_of_uint d)
  = clamp64 (Z.of_N (atoi_digits 0 (NilEmpty.string_of_uint d))).
Proof.
  intros H. destruct (string_of_uint_head d H) as (c & rest & E & Hc).
  rewrite E. destruct (digit_not_space_or_sign c Hc) as (H1 & H2 & H3).
  unfold cast_integer. cbn [skip_space]. rewrite H1, H2, H3. reflexivity.
Qed.

(** [CAST(str(n) AS INTEGER)] is [n] brought within 64 bits. *)
Lemma cast_integer_str_of_int (n : Z) :
  cast_integer (PyStr.str_of_int n) = clamp64 n.
Proof.
  unfold PyStr.str_of_int. destruct n as [|p|p]; cbn [Z.to_int NilZero.string_of_int].
  - reflexivity.
  - assert (H := DecimalPos.Unsigned.to_uint_nonnil p).
    unfold NilZero.string_of_uint.
    destruct (Pos.to_uint p) eqn:E; try congruence;
      rewrite <- E; (rewrite cast_integer_digits by (rewrite E; discriminate));
      rewrite atoi_digits_pos; reflexivity.
  - assert (H := DecimalPos.Unsigned.to_uint_nonnil p).
    unfold NilZero.string_of_uint.
    destruct (Pos.to_uint p) eqn:E; try congruence;
      rewrite <- E; unfold cast_integer; cbn [skip_space];
      change (sqlite3Isspace "-") with false; cbv iota;
      change (Ascii.eqb "-" "-") with true; cbv iota;
      rewrite atoi_digits_pos; reflexivity.
Qed.

(** A printed number holds no U+0000. *)
Lemma until_nul_uint (d : uint) :
  until_nul (NilEmpty.string_of_uint d) = NilEmpty.string_of_uint d.
Proof.
  induction d; cbn [NilEmpty.string_of_uint until_nul]; [reflexivity|..];
    match goal with
    | |- context [Ascii.eqb ?c Ascii.zero] =>
        change (Ascii.eqb c Ascii.zero) with false
    end; cbv iota; rewrite IHd; reflexivity.
Qed.

Lemma until_nul_str_of_int (n : Z) :
  until_nul (PyStr.str_of_int n) = PyStr.str_of_int n.
Proof.
  assert (H : forall d, until_nul (NilZero.string_of_uint d)
                        = NilZero.string_of_uint d).
  { intros d. destruct d; [reflexivity|..];
      apply (until_nul_uint (_ d)). }
  unfold PyStr.str_of_int.
  destruct (Z.to_int n) as [d|d]; cbn [NilZero.string_of_int].
  - apply H.
  - cbn [until_nul]. change (Ascii.eqb "-" Ascii.zero) with false.
    cbv iota. rewrite H. reflexivity.
Qed.

(** [SUBSTR(id, 8)] of an id made by the form is the printed number. *)
Lemma substr_ticket_id_of (n : Z) :
  substr (ticket_id_of n) 8 = PyStr.str_of_int n.
Proof.
  unfold substr, ticket_id_of.
  change (skip_chars (8 - 1) ("TICKET-" ++ PyStr.str_of_int n)%string)
    with (PyStr.str_of_int n).
  apply until_nul_str_of_int.
Qed.

(** The number of a ticket id made by the form, as the query reads it. *)
Lemma suffix_ticket_id_of (n : Z) (r : Row) :
  id r = ticket_id_of n -> Sql.suffix r = clamp64 n.
Proof.
  intros E. unfold Sql.suffix. rewrite E, substr_ticket_id_of.
  apply cast_integer_str_of_int.
Qed.

Lemma clamp64_in_range (n : Z) :
  SMALLEST_INT64 <= n <= LARGEST_INT64 -> clamp64 n = n.
Proof. unfold clamp64, SMALLEST_INT64, LARGEST_INT64. lia. Qed.

Lemma clamp64_bounds (n : Z) :
  SMALLEST_INT64 <= clamp64 n <= LARGEST_INT64.
Proof. unfold clamp64, SMALLEST_INT64, LARGEST_INT64. lia. Qed.

End CastFacts.

(** ** The data-access functions, call by call *)

Section DataAccess.

Lemma storage_call_run (error : Failure -> exn) (c : Call) (s : State) :
  storage_call error c s
  = (match next_outcome s with
     | None => Ok tt
     | Some f => Raise (error f)
     end, after_call c s).
Proof.
  unfold storage_call, next_outcome, after_call.
  destruct s as [t [|[f|] rest] cs df p]; reflexivity.
Qed.

Lemma connect_run (c : Call) (s : State) :
  connect c s
  = (match next_outcome s with
     | None => Ok tt
     | Some f => Raise (sqlite3_error f)
     end, after_call c s).
Proof. apply storage_call_run. Qed.

Lemma get_next_ticket_number_run (s : State) :
  get_next_ticket_number s
  = (match next_outcome s with
     | None => Ok (next_number (tickets s))
     | Some f => Raise (sqlite3_error f)
     end, after_call CallNextNumber s).
Proof.
  unfold get_next_ticket_number, bind, next_number. rewrite connect_run.
  destruct (next_outcome s); [reflexivity|].
  change (tickets (after_call CallNextNumber s)) with (tickets s).
  destruct (Sql.max_suffix (tickets s)); reflexivity.
Qed.

Lemma save_ticket_to_db_run (now : Z) (t : Ticket) (s : State) :
  save_ticket_to_db now t s
  = match next_outcome s with
    | Some f => (Raise (sqlite3_error f), after_call (CallSave t) s)
    | None =>
        match Sql.insert now t (tickets s) with
        | inl e => (Raise e, after_call (CallSave t) s)
        | inr rows => (Ok tt, with_tickets rows (after_call (CallSave t) s))
        end
    end.
Proof.
  unfold save_ticket_to_db, bind. rewrite connect_run.
  destruct (next_outcome s); reflexivity.
Qed.

Lemma load_tickets_from_db_run (s : State) :
  load_tickets_from_db s
  = (match next_outcome s with
     | None => Ok (Sql.select_all (tickets s))
     | Some f => Raise (read_sql_error f)
     end, after_call CallLoad s).
Proof.
  unfold load_tickets_from_db, bind. rewrite storage_call_run.
  destruct (next_outcome s); reflexivity.
Qed.

Lemma update_ticket_in_db_run (tid st pr : string) (s : State) :
  update_ticket_in_db tid st pr s
  = match next_outcome s with
    | Some f =>
        (Raise (sqlite3_error f), after_call (CallUpdate tid st pr) s)
    | None =>
        (Ok tt, with_tickets (Sql.update st pr tid (tickets s))
                  (after_call (CallUpdate tid st pr) s))
    end.
Proof.
  unfold update_ticket_in_db, bind. rewrite connect_run.
  destruct (next_outcome s); reflexivity.
Qed.

Lemma accepting_next (k : nat) (s : State) :
  accepting (S k) (storage s) ->
  next_outcome s = None /\ accepting k (tl (storage s)).
Proof.
  unfold next_outcome. destruct (storage s) as [|[msg|] rest]; simpl.
  - intros _. split; [reflexivity|]. destruct k; exact I.
  - intros [].
  - intros H. split; [reflexivity|exact H].
Qed.

End DataAccess.

(** ** The aggregate MAX *)

Section Max.

Import Sqlite.

Lemma sql_max_None (l : list Z) : sql_max l = None <-> l = [].
Proof.
  destruct l as [|x l]; simpl.
  - tauto.
  - destruct (sql_max l); split; discriminate.
Qed.

Lemma sql_max_Some (l : list Z) (m : Z) :
  sql_max l = Some m -> In m l /\ Forall (fun x => x <= m) l.
Proof.
  revert m. induction l as [|x l IH]; simpl; intros m H.
  - discriminate.
  - destruct (sql_max l) as [m'|] eqn:E.
    + destruct (IH m' eq_refl) as [Hin Hle].
      injection H as <-. split.
      * destruct (Z.max_spec x m') as [[_ ->]|[_ ->]]; auto.
      * constructor; [lia|].
        eapply Forall_impl; [|exact Hle]. simpl. intros; lia.
    + injection H as <-. apply sql_max_None in E. subst l.
      split; [now left|]. constructor; [lia|constructor].
Qed.


Lemma cast_integer_bounds (x : string) :
  SMALLEST_INT64 <= cast_integer x <= LARGEST_INT64.
Proof.
  unfold cast_integer. destruct (skip_space x) as [|c s'].
  - unfold SMALLEST_INT64, LARGEST_INT64. lia.
  - destruct (Ascii.eqb c "-"); [apply clamp64_bounds|].
    destruct (Ascii.eqb c "+"); apply clamp64_bounds.
Qed.

Lemma max_suffix_bound (rows : list Row) (m : Z) :
  Sql.max_suffix rows = Some m -> m <= LARGEST_INT64.
Proof.
  unfold Sql.max_suffix. intros H. apply sql_max_Some in H.
  destruct H as [H _]. apply in_map_iff in H. destruct H as (r & <- & _).
  unfold Sql.suffix. apply cast_integer_bounds.
Qed.

End Max.

(** ** The submission handler, case by case *)

Section Submit.

Lemma insert_run (now : Z) (t : Ticket) (rows : list Row) :
  Sql.insert now t rows
  = if id_taken (ID t) rows
    then inl (IntegrityError "UNIQUE constraint failed: tickets.id")
    else inr (rows ++ [mkRow (ID t) (Issue t) (Status t) (Priority t)
                             (Date_Submitted t) now]).
Proof. reflexivity. Qed.

(** Every way a submission can go. *)
Lemma submit_handler_run (f : Submission) (s : State) :
  submit_handler f s
  = if PyStr.blank (sub_issue f)
    then (Ok tt, with_page (page s ++ [st_error MsgEmptyIssue]) s)
    else
      let s1 := after_call CallNextNumber s in
      let t := new_ticket f (tickets s) in
      let s2 := after_call (CallSave t) s1 in
      match next_outcome s with
      | Some f => (Raise (sqlite3_error f), s1)
      | None =>
          match next_outcome s1 with
          | Some f =>
              (Ok tt, with_page (page s ++ [st_error (MsgSaveError
                                                (sqlite3_error f))]) s2)
          | None =>
              if id_taken (ID t) (tickets s)
              then (Ok tt,
                    with_page
                      (page s ++ [st_error (MsgSaveError (IntegrityError
                                     "UNIQUE constraint failed: tickets.id"))])
                      s2)
              else
                let s3 :=
                  with_page (page s ++ [st_success MsgSaved; st_dataframe [t]])
                    (with_tickets (tickets s ++ [new_row f (tickets s)]) s2) in
                let s4 := after_call CallLoad s3 in
                match next_outcome s3 with
                | Some f =>
                    (Ok tt,
                     with_page (page s3 ++ [st_error (MsgSaveError
                                              (read_sql_error f))]) s4)
                | None =>
                    (Raise RerunException,
                     with_session_df (Sql.select_all (tickets s3)) s4)
                end
          end
      end.
Proof.
  unfold submit_handler. rewrite truthy_strip, negb_involutive.
  destruct (PyStr.blank (sub_issue f)); [reflexivity|].
  unfold bind at 1. rewrite get_next_ticket_number_run.
  cbv zeta. destruct (next_outcome s) as [fl|]; [reflexivity|].
  fold (new_ticket f (tickets s)).
  unfold try_except, bind. rewrite save_ticket_to_db_run.
  destruct (next_outcome (after_call CallNextNumber s)) as [fl|];
    [destruct fl; reflexivity|].
  rewrite insert_run.
  change (tickets (after_call CallNextNumber s)) with (tickets s).
  destruct (id_taken (ID (new_ticket f (tickets s))) (tickets s));
    [reflexivity|].
  cbn [display]. rewrite load_tickets_from_db_run.
  cbv zeta. unfold set_session_df, st_rerun, raise. state_simpl.
  rewrite <- !app_assoc.
  destruct (hd None (tl (tl (storage s)))) as [[msg|msg]|]; reflexivity.
Qed.

End Submit.

(** ** Ticket numbers over successive submissions *)

Section Numbering.

Import Sqlite.

Lemma id_taken_iff (x : string) (rows : list Row) :
  id_taken x rows = true <-> In x (map id rows).
Proof.
  unfold id_taken. rewrite existsb_exists, in_map_iff.
  split; intros (r & H1 & H2).
  - apply String.eqb_eq in H2. eauto.
  - exists r. split; [assumption|]. apply String.eqb_eq. assumption.
Qed.

(** While the numbers fit 64 bits, the id made from the next number is
    not in the table, whatever ids the table holds. *)
Lemma next_id_fresh (rows : list Row) :
  next_number rows <= LARGEST_INT64 ->
  id_taken (ticket_id_of (next_number rows)) rows = false.
Proof.
  intros Hle. destruct (id_taken _ rows) eqn:E; [exfalso|reflexivity].
  apply id_taken_iff, in_map_iff in E. destruct E as (r & Hid & Hin).
  apply suffix_ticket_id_of in Hid.
  unfold next_number in *. destruct (Sql.max_suffix rows) as [m|] eqn:Em.
  - unfold Sql.max_suffix in Em. apply sql_max_Some in Em.
    destruct Em as [Hm Hall]. rewrite Forall_forall in Hall.
    assert (Hr : Sql.suffix r <= m) by (apply Hall, in_map, Hin).
    apply in_map_iff in Hm. destruct Hm as (r' & <- & _).
    assert (B := cast_integer_bounds (substr (id r') 8)).
    fold (Sql.suffix r') in *.
    rewrite clamp64_in_range in Hid by lia. lia.
  - apply sql_max_None in Em. destruct rows; [contradiction|discriminate].
Qed.





Lemma submit_tickets (f : Submission) (s : State) :
  tickets (snd (submit_handler f s)) = tickets s
  \/ (id_taken (ticket_id_of (next_number (tickets s))) (tickets s) = false
      /\ tickets (snd (submit_handler f s))
         = tickets s ++ [new_row f (tickets s)]).
Proof.
  rewrite submit_handler_run. cbv zeta.
  destruct (PyStr.blank (sub_issue f)); [left; reflexivity|].
  destruct (next_outcome s); [left; reflexivity|].
  destruct (next_outcome (after_call CallNextNumber s)); [left; reflexivity|].
  cbn [ID new_ticket].
  destruct (id_taken _ (tickets s)) eqn:E; [left; reflexivity|].
  right. split; [reflexivity|].
  destruct (next_outcome _); reflexivity.
Qed.




End Numbering.

(** ** Submissions that go through *)

Section Creation.

Import Sqlite.

Lemma reliable_next (s : State) :
  reliable (storage s) -> next_outcome s = None.
Proof.
  unfold next_outcome. intros H. destruct (storage s); [reflexivity|].
  inversion H; assumption.
Qed.

Lemma reliable_tl (l : list (option Failure)) : reliable l -> reliable (tl l).
Proof. intros H. destruct l; [exact H|]. inversion H; assumption. Qed.



(** A submission with a usable text, a storage that lets the next three
    calls through and a next number within 64 bits adds its row, shows the
    confirmation and the record, reloads the session and asks for a rerun. *)
Lemma submit_creates (f : Submission) (s : State) :
  nonblank f ->
  accepting 3 (storage s) ->
  next_number (tickets s) <= LARGEST_INT64 ->
  submit_handler f s
  = (Raise RerunException,
     mkState (tickets s ++ [new_row f (tickets s)])
       (tl (tl (tl (storage s))))
       (calls s ++ [CallNextNumber; CallSave (new_ticket f (tickets s));
                    CallLoad])
       (Sql.select_all (tickets s ++ [new_row f (tickets s)]))
       (page s ++ [st_success MsgSaved;
                   st_dataframe [new_ticket f (tickets s)]])).
Proof.
  intros Hb Hacc Hn. rewrite submit_handler_run. cbv zeta.
  unfold nonblank in Hb. rewrite Hb.
  apply accepting_next in Hacc. destruct Hacc as [H1 Hacc]. rewrite H1.
  change (tl (storage s)) with (storage (after_call CallNextNumber s)) in Hacc.
  apply accepting_next in Hacc. destruct Hacc as [H2 Hacc]. rewrite H2.
  cbn [ID new_ticket]. rewrite (next_id_fresh _ Hn).
  match goal with
  | |- context [match next_outcome ?x with _ => _ end] =>
      assert (H3 : next_outcome x = None)
  end.
  { revert Hacc. state_simpl. destruct (tl (tl (storage s))) as [|[m|] l];
      simpl; tauto. }
  rewrite H3. state_simpl. rewrite <- !app_assoc. reflexivity.
Qed.



End Creation.

(** ** The query reads the numeric suffix *)

Section ReadingFacts.

Import Sqlite.











End ReadingFacts.

Section WellFormedIds.

Import Sqlite.



End WellFormedIds.

(** ** Next ticket number *)



(** ** Create Ticket *)

(** C2. A submission whose text is not blank leaves the table as it was or
    adds exactly one row; the added row has the id "TICKET-" followed by
    the next ticket number, the status "Open", the submitted priority and
    today's date, and the page then shows the confirmation and the created
    record. The row is added whenever the storage lets the calls through
    and the next number fits 64 bits. From the empty table the first
    ticket is TICKET-1001 with status Open and the second is TICKET-1002. *)
Theorem create_ticket_inserts_one_row :
  (forall (f : Submission) (s : State),
      nonblank f ->
      let s' := snd (submit_handler f s) in
      let n := next_number (tickets s) in
      let r := mkRow ("TICKET-" ++ PyStr.str_of_int n)%string (sub_issue f)
                     "Open" (sub_priority f) (sub_today f) (sub_now f) in
      let record := mkTicket (id r) (issue r) (status r) (priority r)
                             (date_submitted r) in
      tickets s' = tickets s
      \/ (tickets s' = tickets s ++ [r]
          /\ exists later,
              page s' = page s ++ [st_success MsgSaved; st_dataframe [record]]
                               ++ later))
  /\ (forall (f : Submission) (s : State),
         nonblank f ->
         accepting 3 (storage s) ->
         next_number (tickets s) <= Sqlite.LARGEST_INT64 ->
         let s' := snd (submit_handler f s) in
         tickets s' = tickets s ++ [new_row f (tickets s)]
         /\ page s' = page s ++ [st_success MsgSaved;
                                 st_dataframe [new_ticket f (tickets s)]]
         /\ session_df s' = Sql.select_all (tickets s'))
  /\ (let first := mkSubmission "printer broken" "Medium" "2024-05-01" 10 in
      let second := mkSubmission "no network" "High" "2024-05-01" 11 in
      let s1 := snd (submit_handler first (quiet [] [])) in
      let s2 := snd (submit_handler second s1) in
      tickets s1 = [mkRow "TICKET-1001" "printer broken" "Open" "Medium"
                          "2024-05-01" 10]
      /\ map id (tickets s2) = ["TICKET-1001"; "TICKET-1002"]).
Proof.
  split; [|split].
  - intros f s Hb. cbv zeta. cbn [id issue status priority date_submitted].
    fold (ticket_id_of (next_number (tickets s))).
    fold (new_row f (tickets s)). fold (new_ticket f (tickets s)).
    rewrite submit_handler_run. cbv zeta. unfold nonblank in Hb. rewrite Hb.
    destruct (next_outcome s); [left; reflexivity|].
    destruct (next_outcome (after_call CallNextNumber s)); [left; reflexivity|].
    destruct (id_taken _ (tickets s)); [left; reflexivity|].
    right. destruct (next_outcome _) as [msg|]; state_simpl; cbn [snd tickets page].
    + split; [reflexivity|]. eexists. rewrite <- app_assoc. reflexivity.
    + split; [reflexivity|]. exists []. reflexivity.
  - intros f s Hb Hacc Hn. cbv zeta.
    rewrite (submit_creates f s Hb Hacc Hn). cbn [snd tickets page session_df].
    auto.
  - cbv zeta. split; reflexivity.
Qed.

Lemma create_ticket_inserts_one_row_witness :
  let f := mkSubmission "printer broken" "Medium" "2024-05-01" 10 in
  let s := quiet [mkRow "TICKET-1007" "old" "Closed" "Low" "2024-04-01" 1] [] in
  tickets (snd (submit_handler f s))
  = tickets s ++ [mkRow "TICKET-1008" "printer broken" "Open" "Medium"
                        "2024-05-01" 10].
Proof.
  cbv zeta.
  refine (proj1 (proj1 (proj2 create_ticket_inserts_one_row)
                   (mkSubmission "printer broken" "Medium" "2024-05-01" 10)
                   (quiet [mkRow "TICKET-1007" "old" "Closed" "Low"
                                 "2024-04-01" 1] []) _ _ _)).
  - reflexivity.
  - exact I.
  - vm_compute. discriminate.
Defined.

(** C3. A submission whose text is empty or all white space writes
    nothing: no data-access call is made, the table and every other part
    of the state stay as they were, and the page shows the validation
    error. *)
Theorem blank_issue_is_rejected (f : Submission) (s : State) :
  PyStr.blank (sub_issue f) = true ->
  submit_handler f s
  = (Ok tt, mkState (tickets s) (storage s) (calls s) (session_df s)
                    (page s ++ [st_error MsgEmptyIssue])).
Proof.
  intros Hb. rewrite submit_handler_run, Hb. reflexivity.
Qed.

Lemma blank_issue_is_rejected_witness :
  let s := quiet [mkRow "TICKET-1001" "old" "Open" "Low" "2024-04-01" 1] [] in
  submit_handler (mkSubmission "  " "High" "2024-05-01" 10) s
  = (Ok tt, mkState (tickets s) [] [] [] [st_error MsgEmptyIssue]).
Proof.
  cbv zeta.
  apply (blank_issue_is_rejected (mkSubmission "  " "High" "2024-05-01" 10)
           (quiet [mkRow "TICKET-1001" "old" "Open" "Low" "2024-04-01" 1] [])).
  reflexivity.
Defined.

(** C10. The issue text is stored as it was typed: a submission adds to
    the column [issue] at most the submitted text itself, with its leading
    and trailing white space; the stripped text only decides the check. *)
Theorem issue_is_stored_verbatim :
  (forall (f : Submission) (s : State),
      let s' := snd (submit_handler f s) in
      map issue (tickets s') = map issue (tickets s)
      \/ map issue (tickets s') = map issue (tickets s) ++ [sub_issue f])
  /\ (forall (f : Submission) (s : State),
         nonblank f ->
         accepting 2 (storage s) ->
         next_number (tickets s) <= Sqlite.LARGEST_INT64 ->
         map issue (tickets (snd (submit_handler f s)))
         = map issue (tickets s) ++ [sub_issue f])
  /\ (let f := mkSubmission "  printer broken  " "Medium" "2024-05-01" 10 in
      PyStr.strip (sub_issue f) = "printer broken"
      /\ map issue (tickets (snd (submit_handler f (quiet [] []))))
         = ["  printer broken  "]).
Proof.
  split; [|split].
  - intros f s. cbv zeta.
    destruct (submit_tickets f s) as [->|[_ ->]]; [left; reflexivity|].
    right. rewrite map_app. reflexivity.
  - intros f s Hb Hacc Hn.
    rewrite submit_handler_run. cbv zeta. unfold nonblank in Hb. rewrite Hb.
    apply accepting_next in Hacc. destruct Hacc as [H1 Hacc]. rewrite H1.
    change (tl (storage s)) with (storage (after_call CallNextNumber s)) in Hacc.
    apply accepting_next in Hacc. destruct Hacc as [H2 _]. rewrite H2.
    cbn [ID new_ticket]. rewrite (next_id_fresh _ Hn).
    destruct_outcome; state_simpl; cbn [snd tickets];
      rewrite map_app; reflexivity.
  - cbv zeta. split; reflexivity.
Qed.

Lemma issue_is_stored_verbatim_witness :
  map issue (tickets (snd (submit_handler
                             (mkSubmission " a b " "Low" "2024-05-01" 10)
                             (quiet [] []))))
  = [" a b "].
Proof.
  refine (proj1 (proj2 issue_is_stored_verbatim)
            (mkSubmission " a b " "Low" "2024-05-01" 10) (quiet [] []) _ _ _).
  - reflexivity.
  - exact I.
  - vm_compute. discriminate.
Defined.

(** ** List Tickets *)

Section Listing.

Lemma insert_desc_perm (r : Row) (l : list Row) :
  Permutation (r :: l) (Sql.insert_desc r l).
Proof.
  induction l as [|x l IH]; simpl.
  - apply Permutation_refl.
  - destruct (created_at x <=? created_at r).
    + apply Permutation_refl.
    + eapply perm_trans; [apply perm_swap|]. apply perm_skip, IH.
Qed.

Lemma order_by_perm (rows : list Row) :
  Permutation rows (Sql.order_by_created_at_desc rows).
Proof.
  induction rows as [|r rows IH]; simpl.
  - apply perm_nil.
  - eapply perm_trans; [apply perm_skip, IH|]. apply insert_desc_perm.
Qed.

Lemma insert_desc_sorted (r : Row) (l : list Row) :
  StronglySorted newest_first l ->
  StronglySorted newest_first (Sql.insert_desc r l).
Proof.
  induction l as [|x l IH]; simpl; intros H.
  - constructor; constructor.
  - inversion H as [|? ? Hl Hx]; subst.
    destruct (created_at x <=? created_at r) eqn:E.
    + apply Z.leb_le in E. constructor; [assumption|].
      constructor; [exact E|].
      eapply Forall_impl; [|exact Hx]. unfold newest_first. intros; lia.
    + apply Z.leb_gt in E. constructor; [apply IH, Hl|].
      eapply Permutation_Forall; [apply insert_desc_perm|].
      constructor; [unfold newest_first; lia|assumption].
Qed.

Lemma order_by_sorted (rows : list Row) :
  StronglySorted newest_first (Sql.order_by_created_at_desc rows).
Proof.
  induction rows as [|r rows IH]; simpl.
  - constructor.
  - apply insert_desc_sorted, IH.
Qed.

End Listing.

(** C4. Listing returns all the rows, each row once and with its five
    columns, with no row before a newer one, and leaves the table as it
    is, whether the call goes through or not. *)
Theorem list_tickets_newest_first (s : State) :
  (next_outcome s = None ->
   exists (rows : list Row) (df : DataFrame),
     load_tickets_from_db s = (Ok df, after_call CallLoad s)
     /\ Permutation (tickets s) rows
     /\ StronglySorted newest_first rows
     /\ Forall2 shown_as rows df)
  /\ tickets (snd (load_tickets_from_db s)) = tickets s.
Proof.
  rewrite load_tickets_from_db_run. split.
  - intros H. rewrite H. exists (Sql.order_by_created_at_desc (tickets s)).
    exists (Sql.select_all (tickets s)).
    split; [reflexivity|]. split; [apply order_by_perm|].
    split; [apply order_by_sorted|]. unfold Sql.select_all.
    induction (Sql.order_by_created_at_desc (tickets s)) as [|r l IH];
      cbn [map]; constructor; [|exact IH].
    unfold shown_as. cbn. repeat split.
  - reflexivity.
Qed.

Lemma list_tickets_newest_first_witness :
  exists (rows : list Row) (df : DataFrame),
    load_tickets_from_db
      (quiet [mkRow "TICKET-1001" "a" "Open" "Low" "2024-05-01" 10;
              mkRow "TICKET-1002" "b" "Open" "High" "2024-05-02" 20] [])
    = (Ok df,
       after_call CallLoad
         (quiet [mkRow "TICKET-1001" "a" "Open" "Low" "2024-05-01" 10;
                 mkRow "TICKET-1002" "b" "Open" "High" "2024-05-02" 20] []))
    /\ Permutation
         [mkRow "TICKET-1001" "a" "Open" "Low" "2024-05-01" 10;
          mkRow "TICKET-1002" "b" "Open" "High" "2024-05-02" 20] rows
    /\ StronglySorted newest_first rows
    /\ Forall2 shown_as rows df.
Proof.
  apply (proj1 (list_tickets_newest_first
                  (quiet [mkRow "TICKET-1001" "a" "Open" "Low" "2024-05-01" 10;
                          mkRow "TICKET-1002" "b" "Open" "High" "2024-05-02" 20]
                         []))).
  reflexivity.
Defined.

(** ** Update Ticket *)

Section Update.

Variables ticket_id new_status new_priority : string.

Let set_fields : list Row -> list Row :=
  Sql.update new_status new_priority ticket_id.

Lemma update_rows (rows : list Row) :
  Forall2 (updated_row ticket_id new_status new_priority) rows
    (set_fields rows).
Proof.
  induction rows as [|r rows IH]; simpl; constructor; [|exact IH].
  unfold updated_row.
  destruct (String.eqb_spec (id r) ticket_id) as [E|E]; simpl;
    repeat split; auto; intros; congruence.
Qed.

Lemma Forall2_In_left {A B : Type} (R : A -> B -> Prop) (l : list A)
  (l' : list B) (x : A) :
  Forall2 R l l' -> In x l -> exists y, In y l' /\ R x y.
Proof.
  induction 1 as [|a b l l' Hab _ IH]; simpl; intros Hin; [contradiction|].
  destruct Hin as [<-|Hin].
  - exists b. auto.
  - destruct (IH Hin) as (y & Hy & Hxy). exists y. auto.
Qed.

Lemma update_missing (rows : list Row) :
  ~ In ticket_id (map id rows) -> set_fields rows = rows.
Proof.
  induction rows as [|r rows IH]; simpl; intros H; [reflexivity|].
  destruct (String.eqb_spec (id r) ticket_id) as [E|E].
  - exfalso. apply H. now left.
  - f_equal. apply IH. intros Hin. apply H. now right.
Qed.

Lemma update_twice (rows : list Row) :
  set_fields (set_fields rows) = set_fields rows.
Proof.
  unfold set_fields, Sql.update. rewrite map_map. apply map_ext. intros r.
  destruct (String.eqb_spec (id r) ticket_id) as [E|E]; cbn [id].
  - rewrite E, String.eqb_refl. reflexivity.
  - apply String.eqb_neq in E. rewrite E. reflexivity.
Qed.

End Update.

(** C5. Update Ticket on the id of a row, when the call goes through,
    returns normally and gives every row with that id the new status and
    priority, keeping its id, issue, date_submitted and created_at; rows
    with another id stay as they are, in the same places; at least one row
    carries the new values. Nothing is displayed and the session is not
    touched. *)
Theorem update_ticket_changes_two_fields
  (ticket_id new_status new_priority : string) (s : State) :
  next_outcome s = None ->
  In ticket_id (map id (tickets s)) ->
  let (result, s') :=
    update_ticket_in_db ticket_id new_status new_priority s in
  result = Ok tt
  /\ Forall2 (updated_row ticket_id new_status new_priority)
       (tickets s) (tickets s')
  /\ (exists r', In r' (tickets s') /\ id r' = ticket_id
                 /\ status r' = new_status /\ priority r' = new_priority)
  /\ session_df s' = session_df s /\ page s' = page s.
Proof.
  intros H Hin. rewrite update_ticket_in_db_run, H.
  state_simpl. split; [reflexivity|].
  assert (F := update_rows ticket_id new_status new_priority (tickets s)).
  split; [exact F|]. split; [|split; reflexivity].
  apply in_map_iff in Hin. destruct Hin as (r & Hid & Hr).
  destruct (Forall2_In_left _ _ _ _ F Hr) as (r' & Hr' & U).
  exists r'. split; [exact Hr'|].
  destruct U as (U1 & _ & _ & _ & U2 & _). destruct (U2 Hid).
  repeat split; congruence.
Qed.

Lemma update_ticket_changes_two_fields_witness :
  let s := quiet [mkRow "TICKET-1001" "a" "Open" "Low" "2024-05-01" 10;
                  mkRow "TICKET-1002" "b" "Open" "High" "2024-05-02" 20] [] in
  let (result, s') := update_ticket_in_db "TICKET-1001" "Closed" "High" s in
  result = Ok tt
  /\ Forall2 (updated_row "TICKET-1001" "Closed" "High")
       (tickets s) (tickets s')
  /\ (exists r', In r' (tickets s') /\ id r' = "TICKET-1001"
                 /\ status r' = "Closed" /\ priority r' = "High")
  /\ session_df s' = session_df s /\ page s' = page s.
Proof.
  cbv zeta.
  apply (update_ticket_changes_two_fields "TICKET-1001" "Closed" "High"
           (quiet [mkRow "TICKET-1001" "a" "Open" "Low" "2024-05-01" 10;
                   mkRow "TICKET-1002" "b" "Open" "High" "2024-05-02" 20] [])).
  - reflexivity.
  - simpl. left. reflexivity.
Defined.

(** C6. Update Ticket on an id that no row has, when the call goes
    through, returns normally, displays nothing and leaves the table, the
    session and the page as they were; only the call itself is recorded. *)
Theorem update_missing_id_is_silent
  (ticket_id new_status new_priority : string) (s : State) :
  ~ In ticket_id (map id (tickets s)) ->
  next_outcome s = None ->
  update_ticket_in_db ticket_id new_status new_priority s
  = (Ok tt,
     mkState (tickets s) (tl (storage s))
       (calls s ++ [CallUpdate ticket_id new_status new_priority])
       (session_df s) (page s)).
Proof.
  intros Hno H. rewrite update_ticket_in_db_run, H.
  state_simpl. rewrite (update_missing _ _ _ _ Hno). reflexivity.
Qed.

Lemma update_missing_id_is_silent_witness :
  update_ticket_in_db "TICKET-2000" "Closed" "High"
    (quiet [mkRow "TICKET-1001" "a" "Open" "Low" "2024-05-01" 10] [])
  = (Ok tt,
     mkState [mkRow "TICKET-1001" "a" "Open" "Low" "2024-05-01" 10] []
       [CallUpdate "TICKET-2000" "Closed" "High"] [] []).
Proof.
  apply (update_missing_id_is_silent "TICKET-2000" "Closed" "High"
           (quiet [mkRow "TICKET-1001" "a" "Open" "Low" "2024-05-01" 10] [])).
  - simpl. intros [H|[]]. discriminate H.
  - reflexivity.
Defined.

(** C7. A second Update Ticket with the same arguments leaves the table as
    the first one left it, whether or not the second call goes through. *)
Theorem update_ticket_idempotent
  (ticket_id new_status new_priority : string) (s : State) :
  next_outcome s = None ->
  let s1 := snd (update_ticket_in_db ticket_id new_status new_priority s) in
  let s2 := snd (update_ticket_in_db ticket_id new_status new_priority s1) in
  tickets s2 = tickets s1.
Proof.
  intros H. cbv zeta. rewrite (update_ticket_in_db_run _ _ _ s), H.
  cbn [snd]. rewrite update_ticket_in_db_run.
  destruct_outcome; state_simpl; cbn [snd tickets]; [reflexivity|].
  apply update_twice.
Qed.

Lemma update_ticket_idempotent_witness :
  let s := quiet [mkRow "TICKET-1001" "a" "Open" "Low" "2024-05-01" 10;
                  mkRow "TICKET-1002" "b" "Open" "High" "2024-05-02" 20] [] in
  let s1 := snd (update_ticket_in_db "TICKET-1002" "In Progress" "Low" s) in
  let s2 := snd (update_ticket_in_db "TICKET-1002" "In Progress" "Low" s1) in
  tickets s2 = tickets s1.
Proof.
  apply (update_ticket_idempotent "TICKET-1002" "In Progress" "Low"
           (quiet [mkRow "TICKET-1001" "a" "Open" "Low" "2024-05-01" 10;
                   mkRow "TICKET-1002" "b" "Open" "High" "2024-05-02" 20] [])).
  reflexivity.
Defined.

(** ** Reconciliation of the edits *)

Section Reconciliation.

Lemma skipn_head {A : Type} (idx : nat) (l : list A) (o : A) (os : list A) :
  skipn idx l = o :: os -> nth_error l idx = Some o /\ skipn (S idx) l = os.
Proof.
  revert l. induction idx as [|idx IH]; intros l H.
  - simpl in H. subst l. split; reflexivity.
  - destruct l as [|x l]; [discriminate|]. simpl in H.
    destruct (IH l H) as [H1 H2]. split; assumption.
Qed.

Lemma accepting_less (k : nat) (l : list (option Failure)) :
  accepting (S k) l -> accepting k l.
Proof.
  revert l. induction k as [|k IH]; intros l H; [exact I|].
  destruct l as [|[m|] l]; simpl in *; auto.
Qed.

(** The loop over the edited rows, from index [idx], against the rows
    [originals] that the session holds from that index on. *)
Lemma reconcile_loop_run (rows : DataFrame) :
  forall (originals : DataFrame) (idx : nat) (s : State),
    skipn idx (session_df s) = originals ->
    List.length rows = List.length originals ->
    accepting (List.length rows) (storage s) ->
    exists s',
      reconcile_loop idx rows s = (Ok tt, s')
      /\ calls s'
         = calls s ++ map update_call (filter edited (combine rows originals))
      /\ session_df s' = session_df s
      /\ page s' = page s.
Proof.
  induction rows as [|row rest IH]; intros originals idx s Hskip Hlen Hacc.
  - exists s. simpl. rewrite app_nil_r. auto.
  - destruct originals as [|o os]; [discriminate|].
    injection Hlen as Hlen. cbn [List.length] in Hacc.
    destruct (skipn_head _ _ _ _ Hskip) as [Hnth Hskip'].
    cbn [reconcile_loop]. unfold bind at 1. unfold get_session_df.
    unfold bind at 1. unfold iloc. rewrite Hnth. unfold ret at 1.
    unfold bind at 1. cbn [combine filter edited].
    destruct (negb (Status row =? Status o)%string
              || negb (Priority row =? Priority o)%string).
    + rewrite update_ticket_in_db_run.
      destruct (accepting_next _ _ Hacc) as [H1 Hacc']. rewrite H1.
      match goal with
      | |- context [reconcile_loop (S idx) rest ?s1] =>
          destruct (IH os (S idx) s1) as (s' & Hrun & Hcalls & Hdf & Hpage)
      end; try assumption.
      exists s'. rewrite Hrun. split; [reflexivity|].
      rewrite Hcalls, Hdf, Hpage. state_simpl. cbn [map update_call].
      rewrite <- app_assoc. auto.
    + unfold ret at 1.
      destruct (IH os (S idx) s) as (s' & Hrun & Hcalls & Hdf & Hpage);
        try assumption.
      { apply accepting_less, Hacc. }
      exists s'. rewrite Hrun. auto.
Qed.

Lemma Ticket_eqb_fields (a b : Ticket) :
  Ticket_eqb a b = true ->
  (Status a =? Status b)%string = true
  /\ (Priority a =? Priority b)%string = true.
Proof.
  unfold Ticket_eqb. intros H.
  repeat (apply andb_true_iff in H; destruct H as [H ?]). auto.
Qed.

Lemma df_equals_no_edit (a b : DataFrame) :
  df_equals a b = true -> filter edited (combine a b) = [].
Proof.
  revert b. induction a as [|x a IH]; intros [|y b] H; try reflexivity;
    try discriminate.
  simpl in H. apply andb_true_iff in H. destruct H as [Hxy Hab].
  destruct (Ticket_eqb_fields _ _ Hxy) as [Hs Hp].
  cbn [combine filter edited]. rewrite Hs, Hp. simpl. apply IH, Hab.
Qed.

End Reconciliation.

(** C9. For an edited data frame as long as the one of the session, and a
    storage that lets the calls through, the reconciliation makes exactly
    these data-access calls, in order: one Update Ticket call, with the
    id, status and priority of the edited row, for every position where
    the status or the priority differs from the row of the session at the
    same position; no call for the other positions. *)
Theorem reconcile_calls_by_position (edited_df : DataFrame) (s : State) :
  List.length edited_df = List.length (session_df s) ->
  accepting (List.length edited_df) (storage s) ->
  calls (snd (reconcile edited_df s))
  = calls s
    ++ map update_call (filter edited (combine edited_df (session_df s))).
Proof.
  intros Hlen Hacc. unfold reconcile, bind at 1, get_session_df.
  destruct (df_equals edited_df (session_df s)) eqn:E; cbn [negb].
  - rewrite (df_equals_no_edit _ _ E). simpl. rewrite app_nil_r. reflexivity.
  - destruct (reconcile_loop_run edited_df (session_df s) 0 s eq_refl Hlen Hacc)
      as (s' & Hrun & Hcalls & _ & _).
    unfold try_except, bind. rewrite Hrun. cbn [display set_session_df].
    state_simpl. cbn [snd calls]. exact Hcalls.
Qed.

Lemma reconcile_calls_by_position_witness :
  let original := [mkTicket "TICKET-1002" "b" "Open" "High" "2024-05-02";
                   mkTicket "TICKET-1001" "a" "Open" "Low" "2024-05-01"] in
  let edited_df := [mkTicket "TICKET-1002" "b" "Open" "High" "2024-05-02";
                    mkTicket "TICKET-1001" "a" "Closed" "Low" "2024-05-01"] in
  calls (snd (reconcile edited_df (quiet [] original)))
  = [CallUpdate "TICKET-1001" "Closed" "Low"].
Proof.
  cbv zeta.
  apply (reconcile_calls_by_position
           [mkTicket "TICKET-1002" "b" "Open" "High" "2024-05-02";
            mkTicket "TICKET-1001" "a" "Closed" "Low" "2024-05-01"]
           (quiet [] [mkTicket "TICKET-1002" "b" "Open" "High" "2024-05-02";
                      mkTicket "TICKET-1001" "a" "Open" "Low" "2024-05-01"])).
  - reflexivity.
  - exact I.
Defined.

(** ** Storage failures *)

Section Failures.

(** A write that raises leaves the table as it was. *)
Lemma failed_save_keeps_table (now : Z) (t : Ticket) (s : State) (e : exn) :
  fst (save_ticket_to_db now t s) = Raise e ->
  tickets (snd (save_ticket_to_db now t s)) = tickets s.
Proof.
  rewrite save_ticket_to_db_run.
  destruct (next_outcome s); [reflexivity|].
  destruct (Sql.insert now t (tickets s)); [reflexivity|discriminate].
Qed.

Lemma failed_update_keeps_table (tid st pr : string) (s : State) (e : exn) :
  fst (update_ticket_in_db tid st pr s) = Raise e ->
  tickets (snd (update_ticket_in_db tid st pr s)) = tickets s.
Proof.
  rewrite update_ticket_in_db_run.
  destruct (next_outcome s); [reflexivity|discriminate].
Qed.

(** A failure of the INSERT, refused by the storage or by the primary key,
    is caught: the handler returns, the table is as before and the page
    shows the error. *)
Lemma save_failure_is_caught (f : Submission) (s : State) (e : exn) :
  nonblank f ->
  next_outcome s = None ->
  fst (save_ticket_to_db (sub_now f) (new_ticket f (tickets s))
         (after_call CallNextNumber s)) = Raise e ->
  fst (submit_handler f s) = Ok tt
  /\ tickets (snd (submit_handler f s)) = tickets s
  /\ page (snd (submit_handler f s)) = page s ++ [st_error (MsgSaveError e)].
Proof.
  intros Hb H1. rewrite save_ticket_to_db_run, submit_handler_run, insert_run.
  cbv zeta. unfold nonblank in Hb. rewrite Hb, H1.
  change (tickets (after_call CallNextNumber s)) with (tickets s).
  destruct (next_outcome (after_call CallNextNumber s)).
  - intros [= <-]. auto.
  - destruct (id_taken _ (tickets s)); [|discriminate].
    intros [= <-]. auto.
Qed.

(** A failure of the query for the next number leaves the handler: the
    call is made before the [try]. *)
Lemma next_number_failure_escapes (f : Submission) (s : State)
  (fl : Failure) :
  nonblank f ->
  next_outcome s = Some fl ->
  submit_handler f s
  = (Raise (sqlite3_error fl), after_call CallNextNumber s).
Proof.
  intros Hb H. rewrite submit_handler_run. unfold nonblank in Hb.
  rewrite Hb. cbv zeta. rewrite H. reflexivity.
Qed.



End Failures.

(** C8. Storage failures during a create or an update are to be caught
    and shown as a message. The failure of the query for the next ticket
    number is not: for the submission "printer broken" on a storage that
    answers "database is locked" to that query, the exception leaves the
    handler, and the handler displays nothing. (The failures of the INSERT,
    of the reload and of the updates are caught, see
    [save_failure_is_caught] and [reconcile_returns].) *)
Theorem next_number_failure_is_not_caught :
  submit_handler (mkSubmission "printer broken" "Medium" "2024-05-01" 10)
    (mkState [] [Some (StatementFails "database is locked")] [] [] [])
  = (Raise (OperationalError "database is locked"),
     mkState [] [] [CallNextNumber] [] []).
Proof. reflexivity. Qed.

(** * Further properties of the code *)

(** ** Ticket ids *)

Section TicketIds.

Import Sqlite.

Lemma to_int_proper (n : Z) : Z.to_int n <> Pos Nil /\ Z.to_int n <> Neg Nil.
Proof.
  destruct n as [|p|p]; simpl; split; try discriminate;
    intros [= E]; exact (DecimalPos.Unsigned.to_uint_nonnil p E).
Qed.

Lemma str_of_int_injective (a b : Z) :
  PyStr.str_of_int a = PyStr.str_of_int b -> a = b.
Proof.
  unfold PyStr.str_of_int. intros E.
  destruct (to_int_proper a) as [A1 A2]. destruct (to_int_proper b) as [B1 B2].
  assert (H : Some (Z.to_int a) = Some (Z.to_int b)).
  { rewrite <- (NilZero.isi _ A1 A2), <- (NilZero.isi _ B1 B2), E.
    reflexivity. }
  injection H as H. apply DecimalZ.to_int_inj, H.
Qed.

End TicketIds.

(** X1. The query reads back the number that the form wrote into an id:
    [CAST(SUBSTR(id, 8) AS INTEGER)] of [f"TICKET-{n}"] is [n] brought
    within 64 bits, hence [n] itself for every [n] of that range. *)
Theorem ticket_number_round_trip (n : Z) :
  Sqlite.cast_integer (Sqlite.substr (ticket_id_of n) 8) = Sqlite.clamp64 n
  /\ (Sqlite.SMALLEST_INT64 <= n <= Sqlite.LARGEST_INT64 ->
      Sqlite.cast_integer (Sqlite.substr (ticket_id_of n) 8) = n).
Proof.
  assert (E : Sqlite.cast_integer (Sqlite.substr (ticket_id_of n) 8)
              = Sqlite.clamp64 n).
  { rewrite substr_ticket_id_of. apply cast_integer_str_of_int. }
  split; [exact E|]. intros H. rewrite E. apply clamp64_in_range, H.
Qed.

Lemma ticket_number_round_trip_witness :
  Sqlite.cast_integer (Sqlite.substr (ticket_id_of 1001) 8) = 1001.
Proof.
  apply (proj2 (ticket_number_round_trip 1001)).
  unfold Sqlite.SMALLEST_INT64, Sqlite.LARGEST_INT64. lia.
Defined.

(** X2. Different ticket numbers give different ids, whatever their size
    or sign. *)
Theorem ticket_id_of_injective (a b : Z) :
  ticket_id_of a = ticket_id_of b -> a = b.
Proof.
  unfold ticket_id_of. cbn [String.append]. intros [= E].
  apply str_of_int_injective, E.
Qed.

Lemma ticket_id_of_injective_witness :
  ticket_id_of 1001 = "TICKET-1001" /\ 1001 = 1000 + 1.
Proof.
  split; [reflexivity|].
  apply (ticket_id_of_injective 1001 (1000 + 1)). reflexivity.
Defined.

(** ** The INSERT and the listing *)

Section SaveAndLoad.

Lemma select_columns_row_of (now : Z) (t : Ticket) :
  Sql.select_columns (row_of now t) = t.
Proof. destruct t; reflexivity. Qed.

Lemma order_by_newest (r : Row) (rows : list Row) :
  Forall (fun x => created_at x < created_at r) rows ->
  Sql.order_by_created_at_desc (rows ++ [r])
  = r :: Sql.order_by_created_at_desc rows.
Proof.
  induction 1 as [|x rows Hx _ IH]; [reflexivity|].
  change ((x :: rows) ++ [r]) with (x :: (rows ++ [r])).
  cbn [Sql.order_by_created_at_desc]. rewrite IH.
  cbn [Sql.insert_desc].
  destruct (Z.leb_spec (created_at r) (created_at x)); [lia|reflexivity].
Qed.

End SaveAndLoad.

(** X3. [save_ticket_to_db] returns normally exactly when the storage
    lets the call through and no row has the id of the record; with the
    id already in the table and a storage that answers, it raises the
    integrity error and the table stays as it was. *)
Theorem save_succeeds_iff_id_is_new (now : Z) (t : Ticket) (s : State) :
  (fst (save_ticket_to_db now t s) = Ok tt
   <-> next_outcome s = None /\ ~ In (ID t) (map id (tickets s)))
  /\ (next_outcome s = None ->
      In (ID t) (map id (tickets s)) ->
      save_ticket_to_db now t s
      = (Raise (IntegrityError "UNIQUE constraint failed: tickets.id"),
         after_call (CallSave t) s)).
Proof.
  rewrite save_ticket_to_db_run, insert_run. split.
  - destruct (next_outcome s) as [msg|].
    + split; [discriminate|]. intros [H _]. discriminate.
    + destruct (id_taken (ID t) (tickets s)) eqn:E; cbn [fst].
      * apply id_taken_iff in E. split; [discriminate|]. intros [_ H].
        contradiction.
      * split; [|reflexivity]. intros _. split; [reflexivity|].
        intros H. apply id_taken_iff in H. congruence.
  - intros -> H. apply id_taken_iff in H. rewrite H. reflexivity.
Qed.

Lemma save_succeeds_iff_id_is_new_witness :
  save_ticket_to_db 20 (mkTicket "TICKET-1001" "again" "Open" "Low" "d")
    (quiet [mkRow "TICKET-1001" "a" "Open" "Low" "d" 10] [])
  = (Raise (IntegrityError "UNIQUE constraint failed: tickets.id"),
     after_call (CallSave (mkTicket "TICKET-1001" "again" "Open" "Low" "d"))
       (quiet [mkRow "TICKET-1001" "a" "Open" "Low" "d" 10] [])).
Proof.
  apply (proj2 (save_succeeds_iff_id_is_new 20
                  (mkTicket "TICKET-1001" "again" "Open" "Low" "d")
                  (quiet [mkRow "TICKET-1001" "a" "Open" "Low" "d" 10] []))).
  - reflexivity.
  - simpl. left. reflexivity.
Defined.

(** X4. A saved record can be listed: after a [save_ticket_to_db] that
    returned normally, a listing that goes through returns the record
    together with the rows listed before, in some order, and returns it
    first when its timestamp is later than those of all the other rows. *)
Theorem saved_ticket_is_listed (now : Z) (t : Ticket) (s : State) :
  fst (save_ticket_to_db now t s) = Ok tt ->
  let s1 := snd (save_ticket_to_db now t s) in
  next_outcome s1 = None ->
  exists df,
    fst (load_tickets_from_db s1) = Ok df
    /\ Permutation (t :: Sql.select_all (tickets s)) df
    /\ (Forall (fun r => created_at r < now) (tickets s) ->
        df = t :: Sql.select_all (tickets s)).
Proof.
  intros Hok s1 Hnext. subst s1. revert Hok Hnext.
  rewrite save_ticket_to_db_run, insert_run.
  destruct (next_outcome s); [discriminate|].
  destruct (id_taken (ID t) (tickets s)); [discriminate|].
  intros _ Hnext. cbn [snd] in *. rewrite load_tickets_from_db_run, Hnext.
  state_simpl. fold (row_of now t).
  exists (Sql.select_all (tickets s ++ [row_of now t])).
  split; [reflexivity|]. split.
  - unfold Sql.select_all.
    rewrite <- (select_columns_row_of now t) at 1. rewrite <- map_cons.
    apply Permutation_map.
    eapply perm_trans; [|apply order_by_perm].
    eapply perm_trans; [|apply Permutation_cons_append].
    apply perm_skip, Permutation_sym, order_by_perm.
  - intros Hnew. unfold Sql.select_all.
    rewrite order_by_newest by exact Hnew.
    cbn [map]. rewrite select_columns_row_of. reflexivity.
Qed.

Lemma saved_ticket_is_listed_witness :
  exists df,
    fst (load_tickets_from_db
           (snd (save_ticket_to_db 20
                   (mkTicket "TICKET-1002" "b" "Open" "Low" "d")
                   (quiet [mkRow "TICKET-1001" "a" "Open" "Low" "d" 10] []))))
    = Ok df
    /\ Permutation
         (mkTicket "TICKET-1002" "b" "Open" "Low" "d"
          :: Sql.select_all [mkRow "TICKET-1001" "a" "Open" "Low" "d" 10]) df
    /\ (Forall (fun r => created_at r < 20)
          [mkRow "TICKET-1001" "a" "Open" "Low" "d" 10] ->
        df = mkTicket "TICKET-1002" "b" "Open" "Low" "d"
             :: Sql.select_all [mkRow "TICKET-1001" "a" "Open" "Low" "d" 10]).
Proof.
  apply (saved_ticket_is_listed 20
           (mkTicket "TICKET-1002" "b" "Open" "Low" "d")
           (quiet [mkRow "TICKET-1001" "a" "Open" "Low" "d" 10] []));
    reflexivity.
Defined.

(** ** The check of the form *)

Section Validation.

Lemma blank_iff (s : string) :
  PyStr.blank s = true
  <-> forall c, In c (list_ascii_of_string s) -> PyStr.isspace c = true.
Proof.
  induction s as [|a s IH]; simpl.
  - split; [intros _ c []|reflexivity].
  - rewrite andb_true_iff, IH. split.
    + intros [Ha Hs] c [<-|Hc]; auto.
    + intros H. split; [apply H; now left|]. intros c Hc. apply H. now right.
Qed.

Lemma not_longer {A : Type} (l extra : list A) (x : A) :
  l ++ x :: extra <> l.
Proof.
  intros H. apply (f_equal (@List.length A)) in H.
  rewrite length_app in H. simpl in H. lia.
Qed.

Lemma submit_calls_next_number (f : Submission) (s : State) :
  PyStr.blank (sub_issue f) = false ->
  exists later,
    calls (snd (submit_handler f s)) = calls s ++ CallNextNumber :: later.
Proof.
  intros Hb. rewrite submit_handler_run, Hb. cbv zeta.
  repeat first [destruct_outcome | destruct (id_taken _ _)];
    state_simpl; cbn [snd calls]; rewrite <- ?app_assoc;
    eexists; reflexivity.
Qed.

Lemma submit_page_not_validation (f : Submission) (s : State) :
  PyStr.blank (sub_issue f) = false ->
  page (snd (submit_handler f s)) <> page s ++ [st_error MsgEmptyIssue].
Proof.
  intros Hb. rewrite submit_handler_run, Hb. cbv zeta.
  repeat first [destruct_outcome | destruct (id_taken _ _)];
    state_simpl; cbn [snd page]; rewrite <- ?app_assoc; intros H;
    try (apply app_inv_head in H; discriminate H).
  symmetry in H. exact (not_longer _ _ _ H).
Qed.

End Validation.

(** X5. The form shows its validation error exactly when every character
    of the text is white space, and exactly then it makes no data-access
    call: a text with one other character anywhere always reaches the
    query for the next number. *)
Theorem validation_error_iff_blank (f : Submission) (s : State) :
  let all_space :=
    forall c, In c (list_ascii_of_string (sub_issue f)) ->
              PyStr.isspace c = true in
  (page (snd (submit_handler f s)) = page s ++ [st_error MsgEmptyIssue]
   <-> all_space)
  /\ (calls (snd (submit_handler f s)) = calls s <-> all_space)
  /\ (~ all_space ->
      exists later,
        calls (snd (submit_handler f s)) = calls s ++ CallNextNumber :: later).
Proof.
  cbv zeta. rewrite <- blank_iff.
  destruct (PyStr.blank (sub_issue f)) eqn:Hb.
  - rewrite submit_handler_run, Hb.
    repeat split; try reflexivity. intros H. exfalso. apply H. reflexivity.
  - assert (Hcalls := submit_calls_next_number f s Hb).
    split; [|split].
    + split; [|discriminate]. intros H. exfalso.
      exact (submit_page_not_validation f s Hb H).
    + split; [|discriminate]. intros H. exfalso.
      destruct Hcalls as (later & E). rewrite E in H.
      exact (not_longer _ _ _ H).
    + intros _. exact Hcalls.
Qed.

Lemma validation_error_iff_blank_witness :
  exists later,
    calls (snd (submit_handler (mkSubmission " x " "Low" "d" 1) (quiet [] [])))
    = calls (quiet [] []) ++ CallNextNumber :: later.
Proof.
  apply (proj2 (proj2 (validation_error_iff_blank
                         (mkSubmission " x " "Low" "d" 1) (quiet [] [])))).
  intros H. specialize (H "x"%char). simpl in H.
  assert (E : PyStr.isspace "x" = true) by (apply H; right; left; reflexivity).
  discriminate E.
Defined.

(** ** The metrics *)

Section Counting.

Lemma count_status_cons (value : string) (row : Ticket) (df : DataFrame) :
  count_status value (row :: df)
  = ((if String.eqb (Status row) value then 1 else 0)
     + count_status value df)%nat.
Proof.
  unfold count_status. simpl. destruct (Status row =? value)%string;
    reflexivity.
Qed.

End Counting.

(** X6. The three metrics never count a ticket twice: their sum is at most
    the number of rows of the edited frame, and it is that number exactly
    when every status is one of Open, In Progress and Closed. *)
Theorem metrics_add_up (edited_df : DataFrame) :
  let m := statistics edited_df in
  let total := (num_open_tickets m + num_in_progress m + num_closed m)%nat in
  (total <= List.length edited_df)%nat
  /\ (total = List.length edited_df
      <-> Forall (fun row => In (Status row) status_options) edited_df).
Proof.
  cbv zeta. unfold statistics.
  cbn [num_open_tickets num_in_progress num_closed].
  induction edited_df as [|row df [IHle IHiff]].
  - split; [apply Nat.le_refl|]. split; [constructor|reflexivity].
  - rewrite !count_status_cons. cbn [List.length].
    assert (Hrow :
      match (Status row =? "Open")%string, (Status row =? "In Progress")%string,
            (Status row =? "Closed")%string with
      | true, false, false | false, true, false | false, false, true =>
          In (Status row) status_options
      | false, false, false => ~ In (Status row) status_options
      | _, _, _ => False
      end).
    { destruct (String.eqb_spec (Status row) "Open") as [E1|E1];
      destruct (String.eqb_spec (Status row) "In Progress") as [E2|E2];
      destruct (String.eqb_spec (Status row) "Closed") as [E3|E3];
        try congruence; unfold status_options; simpl; intuition congruence. }
    destruct (Status row =? "Open")%string,
             (Status row =? "In Progress")%string,
             (Status row =? "Closed")%string; try contradiction;
      (split; [lia|]); rewrite Forall_cons_iff; split; intros H;
        first [ solve [split; [exact Hrow | apply IHiff; lia]]
              | solve [apply proj2, IHiff in H; lia]
              | solve [exfalso; lia]
              | solve [apply proj1 in H; contradiction] ].
Qed.

(** ** The end of the numbers *)

(** X7. Once the table holds the id TICKET-9223372036854775808, which the
    query reads as the largest 64-bit integer, the form computes that same
    id for every further ticket: each submission with a usable text, on a
    storage that answers, ends in the integrity error and adds nothing. *)
Theorem numbering_is_exhausted (f : Submission) (s : State) :
  In "TICKET-9223372036854775808" (map id (tickets s)) ->
  nonblank f ->
  accepting 2 (storage s) ->
  fst (submit_handler f s) = Ok tt
  /\ tickets (snd (submit_handler f s)) = tickets s
  /\ page (snd (submit_handler f s))
     = page s ++ [st_error (MsgSaveError (IntegrityError
                              "UNIQUE constraint failed: tickets.id"))].
Proof.
  intros Hin Hb Hacc.
  assert (Hnext : next_number (tickets s) = 9223372036854775808).
  { apply in_map_iff in Hin. destruct Hin as (r & Hid & Hr).
    assert (Hsuf : Sql.suffix r = Sqlite.LARGEST_INT64).
    { rewrite (suffix_ticket_id_of 9223372036854775808 r) by exact Hid.
      reflexivity. }
    unfold next_number. destruct (Sql.max_suffix (tickets s)) as [m|] eqn:E.
    - assert (Hle := max_suffix_bound _ _ E).
      unfold Sql.max_suffix in E. apply sql_max_Some in E.
      destruct E as [_ Hall]. rewrite Forall_forall in Hall.
      assert (Hr' := Hall _ (in_map Sql.suffix _ _ Hr)).
      unfold Sqlite.LARGEST_INT64 in *. lia.
    - apply sql_max_None in E. destruct (tickets s); [contradiction|discriminate]. }
  rewrite submit_handler_run. cbv zeta. unfold nonblank in Hb. rewrite Hb.
  apply accepting_next in Hacc. destruct Hacc as [H1 Hacc]. rewrite H1.
  change (tl (storage s)) with (storage (after_call CallNextNumber s)) in Hacc.
  apply accepting_next in Hacc. destruct Hacc as [H2 _]. rewrite H2.
  cbn [ID new_ticket]. rewrite Hnext.
  change (ticket_id_of 9223372036854775808) with "TICKET-9223372036854775808".
  apply id_taken_iff in Hin. rewrite Hin. auto.
Qed.

Lemma numbering_is_exhausted_witness :
  let f := mkSubmission "one more" "Low" "d" 3 in
  let s := quiet [mkRow "TICKET-9223372036854775808" "b" "Open" "Low" "d" 2] [] in
  fst (submit_handler f s) = Ok tt
  /\ tickets (snd (submit_handler f s)) = tickets s
  /\ page (snd (submit_handler f s))
     = page s ++ [st_error (MsgSaveError (IntegrityError
                              "UNIQUE constraint failed: tickets.id"))].
Proof.
  cbv zeta.
  apply (numbering_is_exhausted (mkSubmission "one more" "Low" "d" 3)
           (quiet [mkRow "TICKET-9223372036854775808" "b" "Open" "Low" "d" 2]
                  [])).
  - simpl. left. reflexivity.
  - reflexivity.
  - exact I.
Defined.

(** ** Properties of the table that every run of the script keeps *)

Section Preservation.

Lemma preserves_ret {A : Type} (P : State -> Prop) (a : A) :
  preserves P (ret a).
Proof. intros s H. exact H. Qed.

Lemma preserves_raise {A : Type} (P : State -> Prop) (e : exn) :
  preserves P (@raise A e).
Proof. intros s H. exact H. Qed.

Lemma preserves_bind {A B : Type} (P : State -> Prop) (m : M A)
  (k : A -> M B) :
  preserves P m -> (forall a, preserves P (k a)) -> preserves P (bind m k).
Proof.
  intros Hm Hk s Hs. unfold bind. specialize (Hm s Hs).
  destruct (m s) as [[a|e] s1]; cbn [snd] in *; [apply Hk, Hm|exact Hm].
Qed.

Lemma preserves_try_except {A : Type} (P : State -> Prop) (body : M A)
  (handler : exn -> M A) :
  preserves P body -> (forall e, preserves P (handler e)) ->
  preserves P (try_except body handler).
Proof.
  intros Hb Hh s Hs. unfold try_except. specialize (Hb s Hs).
  destruct (body s) as [[a|e] s1]; cbn [snd] in *; [exact Hb|].
  destruct (is_Exception e); [apply Hh, Hb|exact Hb].
Qed.

(** A property [Q] of the table alone. *)
Variable Q : list Row -> Prop.

Let on_table (s : State) : Prop := Q (tickets s).

Lemma preserves_display (o : Output) : preserves on_table (display o).
Proof. intros s H. exact H. Qed.

Lemma preserves_get_session_df : preserves on_table get_session_df.
Proof. intros s H. exact H. Qed.

Lemma preserves_set_session_df (df : DataFrame) :
  preserves on_table (set_session_df df).
Proof. intros s H. exact H. Qed.

Lemma preserves_connect (c : Call) : preserves on_table (connect c).
Proof. intros s H. rewrite connect_run. exact H. Qed.

Lemma preserves_load : preserves on_table load_tickets_from_db.
Proof. intros s H. rewrite load_tickets_from_db_run. exact H. Qed.

Lemma preserves_next_number : preserves on_table get_next_ticket_number.
Proof. intros s H. rewrite get_next_ticket_number_run. exact H. Qed.

Lemma preserves_iloc (df : DataFrame) (idx : nat) :
  preserves on_table (iloc df idx).
Proof. intros s H. unfold iloc. destruct (nth_error df idx); exact H. Qed.

Lemma preserves_load_session (requested : bool) :
  preserves on_table (load_session requested).
Proof.
  destruct requested; [|apply preserves_ret].
  apply preserves_bind; [apply preserves_load|].
  intros df. apply preserves_set_session_df.
Qed.

(** [Q] withstands the UPDATE. *)
Hypothesis Q_update :
  forall (new_status new_priority ticket_id : string) (rows : list Row),
    Q rows -> Q (Sql.update new_status new_priority ticket_id rows).

Lemma preserves_update (tid st pr : string) :
  preserves on_table (update_ticket_in_db tid st pr).
Proof.
  intros s H. rewrite update_ticket_in_db_run.
  destruct (next_outcome s); [exact H|]. apply Q_update, H.
Qed.

Lemma preserves_reconcile_loop (rows : DataFrame) :
  forall idx, preserves on_table (reconcile_loop idx rows).
Proof.
  induction rows as [|row rest IH]; intros idx; [apply preserves_ret|].
  cbn [reconcile_loop].
  apply preserves_bind; [apply preserves_get_session_df|]. intros df.
  apply preserves_bind; [apply preserves_iloc|]. intros o.
  apply preserves_bind; [|intros _; apply IH].
  destruct (_ || _); [apply preserves_update|apply preserves_ret].
Qed.

Lemma preserves_reconcile (edited_df : DataFrame) :
  preserves on_table (reconcile edited_df).
Proof.
  unfold reconcile.
  apply preserves_bind; [apply preserves_get_session_df|]. intros df.
  destruct (negb _); [|apply preserves_ret].
  apply preserves_try_except.
  - apply preserves_bind; [apply preserves_reconcile_loop|]. intros _.
    apply preserves_bind; [apply preserves_display|]. intros _.
    apply preserves_set_session_df.
  - intros e. apply preserves_display.
Qed.

Lemma preserves_existing_tickets (editor : DataFrame -> DataFrame) :
  preserves on_table (existing_tickets editor).
Proof.
  unfold existing_tickets.
  apply preserves_bind; [apply preserves_get_session_df|]. intros df.
  cbv zeta. destruct (0 <? List.length df)%nat; [|apply preserves_ret].
  apply preserves_bind; [apply preserves_reconcile|]. intros _.
  apply preserves_ret.
Qed.

(** [Q] withstands the INSERT of a row whose id is new. *)
Hypothesis Q_insert :
  forall (rows : list Row) (r : Row),
    Q rows -> ~ In (id r) (map id rows) -> Q (rows ++ [r]).

Lemma preserves_save (now : Z) (t : Ticket) :
  preserves on_table (save_ticket_to_db now t).
Proof.
  intros s H. rewrite save_ticket_to_db_run, insert_run.
  destruct (next_outcome s); [exact H|].
  destruct (id_taken (ID t) (tickets s)) eqn:E; [exact H|].
  apply Q_insert; [exact H|]. cbn [id]. intros Hin.
  apply id_taken_iff in Hin. congruence.
Qed.

Lemma preserves_submit_handler (f : Submission) :
  preserves on_table (submit_handler f).
Proof.
  unfold submit_handler. destruct (negb _); [apply preserves_display|].
  apply preserves_bind; [apply preserves_next_number|]. intros n. cbv zeta.
  apply preserves_try_except; [|intros e; apply preserves_display].
  apply preserves_bind; [apply preserves_save|]. intros _.
  apply preserves_bind; [apply preserves_display|]. intros _.
  apply preserves_bind; [apply preserves_display|]. intros _.
  apply preserves_bind; [apply preserves_load|]. intros df.
  apply preserves_bind; [apply preserves_set_session_df|]. intros _.
  apply preserves_raise.
Qed.

Lemma preserves_script (i : Interaction) : preserves on_table (script i).
Proof.
  unfold script.
  apply preserves_bind; [apply preserves_load_session|]. intros _.
  apply preserves_bind; [|intros _; apply preserves_existing_tickets].
  destruct (submitted i); [apply preserves_submit_handler|apply preserves_ret].
Qed.

Lemma run_script_keeps (interactions : list Interaction) (s : State) :
  Q (tickets s) -> Q (tickets (run_script interactions s)).
Proof.
  revert s. induction interactions as [|i rest IH]; intros s H; [exact H|].
  cbn [run_script]. apply IH. apply (preserves_script i s H).
Qed.

End Preservation.

Section FixedParts.

Lemma update_keeps_fixed_part (st pr tid : string) (rows : list Row) :
  map fixed_part (Sql.update st pr tid rows) = map fixed_part rows.
Proof.
  unfold Sql.update. rewrite map_map. apply map_ext. intros r.
  destruct (id r =? tid)%string; reflexivity.
Qed.

Lemma update_keeps_ids (st pr tid : string) (rows : list Row) :
  map id (Sql.update st pr tid rows) = map id rows.
Proof.
  unfold Sql.update. rewrite map_map. apply map_ext. intros r.
  destruct (id r =? tid)%string; reflexivity.
Qed.

Lemma NoDup_snoc {A : Type} (l : list A) (x : A) :
  NoDup l -> ~ In x l -> NoDup (l ++ [x]).
Proof.
  intros Hl Hx. apply NoDup_rev in Hl.
  rewrite <- (rev_involutive (l ++ [x])), rev_app_distr. apply NoDup_rev.
  cbn [rev app]. constructor; [|exact Hl].
  intros H. apply Hx, in_rev, H.
Qed.

End FixedParts.

(** X8. The ids stay unique: whatever the user submits or edits and
    whatever the storage answers, a table without two rows of the same id
    has none after any number of runs of the script. *)
Theorem ids_stay_unique (interactions : list Interaction) (s : State) :
  NoDup (map id (tickets s)) ->
  NoDup (map id (tickets (run_script interactions s))).
Proof.
  apply (run_script_keeps (fun rows => NoDup (map id rows))).
  - intros st pr tid rows H. rewrite update_keeps_ids. exact H.
  - intros rows r H Hr. rewrite map_app. apply NoDup_snoc; assumption.
Qed.

Lemma ids_stay_unique_witness :
  NoDup (map id (tickets
    (run_script
       [mkInteraction true
          (Some (mkSubmission "printer broken" "Medium" "2024-05-01" 10))
          (fun df => df);
        mkInteraction false None
          (map (fun t => mkTicket (ID t) (Issue t) "Closed" "Low"
                                  (Date_Submitted t)))]
       (quiet [mkRow "TICKET-1001" "a" "Open" "Low" "d" 1] [])))).
Proof.
  apply ids_stay_unique. simpl. repeat constructor. intros [].
Defined.

(** X9. No run of the script deletes a ticket or touches the id, issue,
    date_submitted or created_at of a stored row: after any number of
    runs, with any inputs and any answers of the storage, these columns
    of the table are the former ones, followed by those of the rows added
    since. *)
Theorem stored_tickets_are_kept (interactions : list Interaction) (s : State) :
  exists added,
    map fixed_part (tickets (run_script interactions s))
    = map fixed_part (tickets s) ++ added.
Proof.
  apply (run_script_keeps
           (fun rows => exists added,
              map fixed_part rows = map fixed_part (tickets s) ++ added)).
  - intros st pr tid rows H. rewrite update_keeps_fixed_part. exact H.
  - intros rows r (added & H) _. exists (added ++ [fixed_part r]).
    rewrite map_app, H, <- app_assoc. reflexivity.
  - exists []. rewrite app_nil_r. reflexivity.
Qed.

(** X10. The reconciliation neither adds nor removes rows and leaves the
    id, issue, date_submitted and created_at of every row as they were,
    for every edited frame, also one that does not fit the session, and
    for every answer of the storage. *)
Theorem reconcile_keeps_fixed_parts (edited_df : DataFrame) (s : State) :
  map fixed_part (tickets (snd (reconcile edited_df s)))
  = map fixed_part (tickets s).
Proof.
  apply (preserves_reconcile
           (fun rows => map fixed_part rows = map fixed_part (tickets s))).
  - intros st pr tid rows H. rewrite update_keeps_fixed_part. exact H.
  - reflexivity.
Qed.

(** ** The calls of the reconciliation, whatever happens *)

Section Prefix.

Lemma skipn_nth_error {A : Type} (l : list A) (idx : nat) :
  match nth_error l idx with
  | Some o => skipn idx l = o :: skipn (S idx) l
  | None => skipn idx l = []
  end.
Proof.
  revert l. induction idx as [|idx IH]; intros [|x l]; try reflexivity.
  cbn [nth_error]. specialize (IH l). destruct (nth_error l idx);
    cbn [skipn] in *; exact IH.
Qed.

Lemma combine_nil_r {A B : Type} (l : list A) : combine l (@nil B) = [].
Proof. destruct l; reflexivity. Qed.

Lemma reconcile_loop_calls_prefix (rows : DataFrame) :
  forall (idx : nat) (s : State),
    exists made rest,
      calls (snd (reconcile_loop idx rows s)) = calls s ++ made
      /\ map update_call
           (filter edited (combine rows (skipn idx (session_df s))))
         = made ++ rest.
Proof.
  induction rows as [|row rest IH]; intros idx s.
  - exists [], []. simpl. rewrite app_nil_r. auto.
  - cbn [reconcile_loop]. unfold bind at 1, get_session_df.
    unfold bind at 1, iloc.
    assert (Hskip := skipn_nth_error (session_df s) idx).
    destruct (nth_error (session_df s) idx) as [o|].
    + rewrite Hskip. unfold ret at 1, bind at 1. cbn [combine filter edited].
      destruct (negb (Status row =? Status o)%string
                || negb (Priority row =? Priority o)%string).
      * rewrite update_ticket_in_db_run. destruct (next_outcome s).
        -- cbn [snd]. state_simpl. do 2 eexists. split; reflexivity.
        -- match goal with
           | |- context [reconcile_loop (S idx) rest ?s1] =>
               destruct (IH (S idx) s1) as (made & rest' & H1 & H2)
           end.
           exists (update_call (row, o) :: made), rest'.
           split.
           ++ rewrite H1. state_simpl. rewrite <- app_assoc. reflexivity.
           ++ cbn [map]. revert H2. state_simpl. intros ->. reflexivity.
      * unfold ret at 1.
        destruct (IH (S idx) s) as (made & rest' & H1 & H2).
        exists made, rest'. auto.
    + rewrite Hskip, combine_nil_r. exists [], []. cbn [snd raise].
      rewrite app_nil_r. auto.
Qed.

End Prefix.

(** X11. Whatever the storage answers and whatever the lengths of the
    frames, the calls that the reconciliation makes are update calls for
    edited positions, in order and without gaps: an initial part of the
    calls that a run without failure makes. *)
Theorem reconcile_calls_are_an_initial_part (edited_df : DataFrame)
  (s : State) :
  exists made rest,
    calls (snd (reconcile edited_df s)) = calls s ++ made
    /\ map update_call (filter edited (combine edited_df (session_df s)))
       = made ++ rest.
Proof.
  unfold reconcile, bind at 1, get_session_df.
  destruct (df_equals edited_df (session_df s)); cbn [negb].
  - exists [].
    exists (map update_call
              (filter edited (combine edited_df (session_df s)))).
    cbn [snd ret]. rewrite app_nil_r. split; reflexivity.
  - destruct (reconcile_loop_calls_prefix edited_df 0 s)
      as (made & rest & H1 & H2).
    exists made, rest. split; [|exact H2].
    unfold try_except, bind.
    destruct (reconcile_loop 0 edited_df s) as [[[]|e] s1]; cbn [snd] in H1.
    + exact H1.
    + destruct (is_Exception e); exact H1.
Qed.

(** ** Edits reach the rows they were made on *)

Section Edits.

Lemma insert_desc_map (g : Row -> Row) (r : Row) (l : list Row) :
  (forall x, created_at (g x) = created_at x) ->
  Sql.insert_desc (g r) (map g l) = map g (Sql.insert_desc r l).
Proof.
  intros Hg. induction l as [|x l IH]; [reflexivity|].
  cbn [map Sql.insert_desc]. rewrite !Hg.
  destruct (created_at x <=? created_at r); [reflexivity|].
  rewrite IH. reflexivity.
Qed.

Lemma order_by_map (g : Row -> Row) (rows : list Row) :
  (forall x, created_at (g x) = created_at x) ->
  Sql.order_by_created_at_desc (map g rows)
  = map g (Sql.order_by_created_at_desc rows).
Proof.
  intros Hg. induction rows as [|r rows IH]; [reflexivity|].
  cbn [map Sql.order_by_created_at_desc].
  rewrite IH. apply insert_desc_map, Hg.
Qed.

(** The listing of an updated table is the updated listing. *)
Lemma select_all_update (st pr tid : string) (rows : list Row) :
  Sql.select_all (Sql.update st pr tid rows)
  = map (set_ticket st pr tid) (Sql.select_all rows).
Proof.
  unfold Sql.select_all, Sql.update.
  rewrite order_by_map by (intros x; destruct (id x =? tid)%string;
                           reflexivity).
  rewrite !map_map. apply map_ext. intros r. unfold set_ticket.
  cbn [ID Sql.select_columns].
  destruct (id r =? tid)%string; reflexivity.
Qed.

Lemma set_ticket_others (st pr tid : string) (l : DataFrame) :
  ~ In tid (map ID l) -> map (set_ticket st pr tid) l = l.
Proof.
  induction l as [|t l IH]; intros H; [reflexivity|].
  cbn [map]. unfold set_ticket at 1.
  destruct (String.eqb_spec (ID t) tid) as [E|E].
  - exfalso. apply H. left. exact E.
  - f_equal. apply IH. intros Hin. apply H. right. exact Hin.
Qed.

Lemma set_ticket_at (st pr : string) (done os : DataFrame) (o : Ticket) :
  NoDup (map ID (done ++ o :: os)) ->
  map (set_ticket st pr (ID o)) (done ++ o :: os)
  = done ++ mkTicket (ID o) (Issue o) st pr (Date_Submitted o) :: os.
Proof.
  intros H. rewrite map_app in H. cbn [map] in H.
  assert (Hno := NoDup_remove_2 _ _ _ H).
  rewrite map_app. cbn [map]. unfold set_ticket at 2.
  rewrite String.eqb_refl.
  rewrite !set_ticket_others; [reflexivity| |];
    intros Hin; apply Hno, in_or_app; auto.
Qed.

Lemma listing_ids_unique (rows : list Row) :
  NoDup (map id rows) -> NoDup (map ID (Sql.select_all rows)).
Proof.
  intros H. unfold Sql.select_all. rewrite map_map. cbn [ID Sql.select_columns].
  eapply Permutation_NoDup; [|exact H].
  apply Permutation_map, order_by_perm.
Qed.

Lemma Ticket_eqb_eq (a b : Ticket) : Ticket_eqb a b = true -> a = b.
Proof.
  unfold Ticket_eqb. destruct a, b. cbn [ID Issue Status Priority Date_Submitted].
  rewrite !andb_true_iff, !String.eqb_eq. intros [[[[-> ->] ->] ->] ->].
  reflexivity.
Qed.

Lemma df_equals_eq (a b : DataFrame) : df_equals a b = true -> a = b.
Proof.
  revert b. induction a as [|x a IH]; intros [|y b] H; try discriminate;
    [reflexivity|].
  simpl in H. apply andb_true_iff in H. destruct H as [Hxy Hab].
  f_equal; [apply Ticket_eqb_eq, Hxy|apply IH, Hab].
Qed.

Lemma unedited_row (o row : Ticket) :
  same_fixed_columns o row ->
  negb (Status row =? Status o)%string
  || negb (Priority row =? Priority o)%string = false ->
  row = o.
Proof.
  intros (H1 & H2 & H3) H. apply orb_false_iff in H. destruct H as [Hs Hp].
  apply negb_false_iff, String.eqb_eq in Hs, Hp.
  destruct o, row. cbn in *. congruence.
Qed.

Lemma edited_row (o row : Ticket) :
  same_fixed_columns o row ->
  mkTicket (ID o) (Issue o) (Status row) (Priority row) (Date_Submitted o)
  = row.
Proof. intros (H1 & H2 & H3). destruct o, row. cbn in *. congruence. Qed.

(** The loop, on a table whose listing is the edited rows done so far
    followed by the rows of the session still to do. *)
Lemma reconcile_loop_listing (rows : DataFrame) :
  forall (os done : DataFrame) (idx : nat) (s : State),
    skipn idx (session_df s) = os ->
    Forall2 same_fixed_columns os rows ->
    Sql.select_all (tickets s) = done ++ os ->
    NoDup (map ID (done ++ os)) ->
    reliable (storage s) ->
    exists s',
      reconcile_loop idx rows s = (Ok tt, s')
      /\ Sql.select_all (tickets s') = done ++ rows
      /\ session_df s' = session_df s
      /\ page s' = page s
      /\ reliable (storage s').
Proof.
  induction rows as [|row rest IH]; intros os done idx s Hskip Hshape Hlist
    Hnodup Hrel.
  - destruct os as [|o os']; [|inversion Hshape].
    exists s. cbn [reconcile_loop ret]. rewrite Hlist. auto.
  - destruct os as [|o os']; [inversion Hshape|].
    apply Forall2_cons_iff in Hshape. destruct Hshape as [Ho Hrest].
    destruct (skipn_head _ _ _ _ Hskip) as [Hnth Hskip'].
    cbn [reconcile_loop]. unfold bind at 1, get_session_df.
    unfold bind at 1, iloc. rewrite Hnth. unfold ret at 1, bind at 1.
    assert (Hids : map ID ((done ++ [row]) ++ os') = map ID (done ++ o :: os')).
    { rewrite <- app_assoc. cbn [app]. rewrite !map_app. cbn [map].
      destruct Ho as [-> _]. reflexivity. }
    destruct (negb (Status row =? Status o)%string
              || negb (Priority row =? Priority o)%string) eqn:E.
    + rewrite update_ticket_in_db_run, (reliable_next _ Hrel).
      match goal with
      | |- context [reconcile_loop (S idx) rest ?s1] =>
          destruct (IH os' (done ++ [row]) (S idx) s1)
            as (s' & Hrun & Hl & Hdf & Hpage & Hrel')
      end.
      * exact Hskip'.
      * exact Hrest.
      * state_simpl. rewrite select_all_update, Hlist.
        destruct Ho as [Hid Ho]. rewrite Hid.
        rewrite set_ticket_at by exact Hnodup.
        rewrite (edited_row o row) by (split; assumption).
        rewrite <- app_assoc. reflexivity.
      * rewrite Hids. exact Hnodup.
      * state_simpl. apply reliable_tl, Hrel.
      * exists s'. rewrite Hrun. split; [reflexivity|].
        rewrite Hl, <- app_assoc. auto.
    + unfold ret at 1. rewrite (unedited_row o row Ho E) in *.
      destruct (IH os' (done ++ [o]) (S idx) s)
        as (s' & Hrun & Hl & Hdf & Hpage & Hrel'); try assumption.
      * rewrite Hlist, <- app_assoc. reflexivity.
      * rewrite Hids. exact Hnodup.
      * exists s'. rewrite Hrun. split; [reflexivity|].
        rewrite Hl, <- app_assoc. auto.
Qed.

Lemma reconcile_in_sync (edited_df : DataFrame) (s : State) :
  NoDup (map id (tickets s)) ->
  in_sync s ->
  Forall2 same_fixed_columns (session_df s) edited_df ->
  reliable (storage s) ->
  exists s',
    reconcile edited_df s = (Ok tt, s')
    /\ Sql.select_all (tickets s') = edited_df
    /\ session_df s' = edited_df
    /\ reliable (storage s').
Proof.
  intros Hnodup Hsync Hshape Hrel. unfold in_sync in Hsync.
  unfold reconcile, bind at 1, get_session_df.
  destruct (df_equals edited_df (session_df s)) eqn:E; cbn [negb].
  - apply df_equals_eq in E. subst edited_df. exists s. auto.
  - destruct (reconcile_loop_listing edited_df (session_df s) [] 0 s)
      as (s' & Hrun & Hl & Hdf & Hpage & Hrel'); try assumption.
    + reflexivity.
    + symmetry. exact Hsync.
    + cbn [app]. rewrite Hsync. apply listing_ids_unique, Hnodup.
    + unfold try_except, bind. rewrite Hrun. cbn [display set_session_df].
      eexists. split; [reflexivity|]. state_simpl. auto.
Qed.

End Edits.

(** X12. Edits are saved on the tickets they were made on. When the ids
    are unique, the session shows the table as listed, the edited frame
    has the rows of the session with their disabled columns, and the
    storage lets the calls through, then after the reconciliation a
    listing of the table is exactly the edited frame, which is also the
    new frame of the session. *)
Theorem reconcile_saves_the_edits (edited_df : DataFrame) (s : State) :
  NoDup (map id (tickets s)) ->
  in_sync s ->
  Forall2 same_fixed_columns (session_df s) edited_df ->
  reliable (storage s) ->
  let s' := snd (reconcile edited_df s) in
  fst (reconcile edited_df s) = Ok tt
  /\ Sql.select_all (tickets s') = edited_df
  /\ session_df s' = edited_df
  /\ reliable (storage s').
Proof.
  intros Hnodup Hsync Hshape Hrel. cbv zeta.
  destruct (reconcile_in_sync edited_df s Hnodup Hsync Hshape Hrel)
    as (s' & -> & H). exact (conj eq_refl H).
Qed.

Lemma reconcile_saves_the_edits_witness :
  let rows := [mkRow "TICKET-1001" "a" "Open" "Low" "d1" 10;
               mkRow "TICKET-1002" "b" "Open" "High" "d2" 20] in
  let edited_df := [mkTicket "TICKET-1002" "b" "In Progress" "High" "d2";
                    mkTicket "TICKET-1001" "a" "Closed" "Medium" "d1"] in
  let s := quiet rows (Sql.select_all rows) in
  fst (reconcile edited_df s) = Ok tt
  /\ Sql.select_all (tickets (snd (reconcile edited_df s))) = edited_df
  /\ session_df (snd (reconcile edited_df s)) = edited_df
  /\ reliable (storage (snd (reconcile edited_df s))).
Proof.
  cbv zeta.
  apply (reconcile_saves_the_edits
           [mkTicket "TICKET-1002" "b" "In Progress" "High" "d2";
            mkTicket "TICKET-1001" "a" "Closed" "Medium" "d1"]
           (quiet [mkRow "TICKET-1001" "a" "Open" "Low" "d1" 10;
                   mkRow "TICKET-1002" "b" "Open" "High" "d2" 20]
              (Sql.select_all
                 [mkRow "TICKET-1001" "a" "Open" "Low" "d1" 10;
                  mkRow "TICKET-1002" "b" "Open" "High" "d2" 20]))).
  - simpl. repeat constructor; simpl; intuition discriminate.
  - reflexivity.
  - simpl. repeat constructor.
  - constructor.
Defined.

(** ** The session and the table *)

Section Sync.

Lemma load_session_well_kept (requested : bool) (s : State) :
  reliable (storage s) ->
  NoDup (map id (tickets s)) ->
  requested = true \/ in_sync s ->
  exists s', load_session requested s = (Ok tt, s') /\ well_kept s'.
Proof.
  intros Hrel Hnodup Hor. unfold load_session. destruct requested.
  - unfold bind. rewrite load_tickets_from_db_run, (reliable_next _ Hrel).
    cbn [set_session_df]. eexists. split; [reflexivity|].
    unfold well_kept, in_sync. state_simpl.
    repeat split; auto using reliable_tl.
  - destruct Hor as [Hor|Hsync]; [discriminate|].
    exists s. unfold well_kept. auto.
Qed.

Lemma submit_handler_well_kept (f : Submission) :
  preserves well_kept (submit_handler f).
Proof.
  intros s (Hrel & Hnodup & Hsync). rewrite submit_handler_run. cbv zeta.
  unfold well_kept, in_sync in *.
  destruct (PyStr.blank (sub_issue f)); [cbn [snd]; auto|].
  rewrite (reliable_next _ Hrel).
  assert (H1 : next_outcome (after_call CallNextNumber s) = None).
  { apply reliable_next. state_simpl. apply reliable_tl, Hrel. }
  rewrite H1. cbn [ID new_ticket].
  destruct (id_taken _ (tickets s)) eqn:E.
  - cbn [snd]. state_simpl. repeat split; auto using reliable_tl.
  - match goal with
    | |- context [match next_outcome ?x with _ => _ end] =>
        assert (H2 : next_outcome x = None)
    end.
    { apply reliable_next. state_simpl. auto using reliable_tl. }
    rewrite H2. cbn [snd]. state_simpl.
    repeat split; auto using reliable_tl.
    rewrite map_app. apply NoDup_snoc; [exact Hnodup|].
    cbn [map id new_row]. intros Hin. apply id_taken_iff in Hin. congruence.
Qed.

Lemma reconcile_ids_unique (edited_df : DataFrame) (s : State) :
  NoDup (map id (tickets s)) ->
  NoDup (map id (tickets (snd (reconcile edited_df s)))).
Proof.
  apply (preserves_reconcile (fun rows => NoDup (map id rows))).
  intros st pr tid rows H. rewrite update_keeps_ids. exact H.
Qed.

Lemma existing_tickets_well_kept (editor : DataFrame -> DataFrame) :
  respects_disabled editor ->
  preserves well_kept (existing_tickets editor).
Proof.
  intros Hed s (Hrel & Hnodup & Hsync).
  unfold existing_tickets, bind at 1, get_session_df. cbv zeta.
  destruct (0 <? List.length (session_df s))%nat;
    [|cbn [snd ret]; unfold well_kept; auto].
  destruct (reconcile_in_sync (editor (session_df s)) s Hnodup Hsync
              (Hed (session_df s)) Hrel) as (s' & Hrun & Hl & Hdf & Hrel').
  unfold bind. rewrite Hrun. cbn [snd ret]. unfold well_kept, in_sync.
  repeat split; [exact Hrel'| |congruence].
  assert (H := reconcile_ids_unique (editor (session_df s)) s Hnodup).
  rewrite Hrun in H. exact H.
Qed.

End Sync.

Section Runs.

Lemma script_well_kept (i : Interaction) (s : State) :
  respects_disabled (data_editor i) ->
  reliable (storage s) ->
  NoDup (map id (tickets s)) ->
  load_requested i = true \/ in_sync s ->
  well_kept (snd (script i s)).
Proof.
  intros Hed Hrel Hnodup Hor. unfold script, bind at 1.
  destruct (load_session_well_kept _ s Hrel Hnodup Hor) as (s1 & -> & Hk).
  revert s1 Hk. apply preserves_bind.
  - destruct (submitted i);
      [apply submit_handler_well_kept|apply preserves_ret].
  - intros _. apply existing_tickets_well_kept, Hed.
Qed.

Lemma run_script_well_kept (interactions : list Interaction) :
  forall s : State,
    Forall (fun i => respects_disabled (data_editor i)) interactions ->
    well_kept s ->
    well_kept (run_script interactions s).
Proof.
  induction interactions as [|i rest IH]; intros s Hall Hk; [exact Hk|].
  inversion Hall as [|? ? Hi Hrest]; subst. cbn [run_script].
  apply IH; [exact Hrest|]. destruct Hk as (Hrel & Hnodup & Hsync).
  apply script_well_kept; auto.
Qed.

End Runs.

(** X13. The session shows the table. From a first run, which loads the
    session, through any number of further runs with any submissions and
    any edits that keep the rows in place and the disabled columns as they
    are, a table with unique ids on a storage that lets every call
    through is, after each run, listed exactly as the frame of the session
    shows it. *)
Theorem session_shows_the_table (first : Interaction)
  (rest : list Interaction) (s : State) :
  load_requested first = true ->
  Forall (fun i => respects_disabled (data_editor i)) (first :: rest) ->
  reliable (storage s) ->
  NoDup (map id (tickets s)) ->
  let s' := run_script (first :: rest) s in
  session_df s' = Sql.select_all (tickets s').
Proof.
  intros Hload Hall Hrel Hnodup. cbv zeta. cbn [run_script].
  inversion Hall as [|? ? Hfirst Hrest]; subst.
  apply (run_script_well_kept rest); [exact Hrest|].
  apply script_well_kept; auto.
Qed.

Lemma session_shows_the_table_witness :
  let s' :=
    run_script
      [mkInteraction true
         (Some (mkSubmission "printer broken" "Medium" "2024-05-01" 30))
         (fun df => df);
       mkInteraction false None
         (map (fun t => mkTicket (ID t) (Issue t) "Closed" "Low"
                                 (Date_Submitted t)))]
      (mkState [mkRow "TICKET-1001" "a" "Open" "Low" "d" 10] [] [] [] []) in
  session_df s' = Sql.select_all (tickets s').
Proof.
  apply (session_shows_the_table
           (mkInteraction true
              (Some (mkSubmission "printer broken" "Medium" "2024-05-01" 30))
              (fun df => df))
           [mkInteraction false None
              (map (fun t => mkTicket (ID t) (Issue t) "Closed" "Low"
                                      (Date_Submitted t)))]
           (mkState [mkRow "TICKET-1001" "a" "Open" "Low" "d" 10] [] [] [] [])).
  - reflexivity.
  - repeat constructor; intros df; cbn [data_editor].
    + induction df; constructor; [repeat split|assumption].
    + induction df; cbn [map]; constructor; [repeat split|assumption].
  - constructor.
  - simpl. repeat constructor. intros [].
Defined.

(** ** Runs that end in an exception *)

Section Uncaught.






End Uncaught.



(** ** Runs without input *)

Section Idle.



End Idle.


(** ** The metrics and the table *)

Section MetricsOfTable.

Lemma filter_length_perm {A : Type} (f : A -> bool) (l l' : list A) :
  Permutation l l' ->
  List.length (filter f l) = List.length (filter f l').
Proof.
  induction 1 as [|x l l' _ IH|x y l|l l' l'' _ IH1 _ IH2]; simpl.
  - reflexivity.
  - destruct (f x); simpl; congruence.
  - destruct (f x), (f y); reflexivity.
  - congruence.
Qed.

Lemma filter_length_map {A B : Type} (f : B -> bool) (g : A -> B)
  (l : list A) :
  List.length (filter f (map g l))
  = List.length (filter (fun x => f (g x)) l).
Proof.
  induction l as [|x l IH]; [reflexivity|].
  simpl. destruct (f (g x)); simpl; congruence.
Qed.

Lemma count_status_select_all (value : string) (rows : list Row) :
  count_status value (Sql.select_all rows) = count_rows value rows.
Proof.
  unfold count_status, count_rows, Sql.select_all.
  rewrite filter_length_map. cbn [Status Sql.select_columns].
  apply filter_length_perm, Permutation_sym, order_by_perm.
Qed.

Lemma select_all_length (rows : list Row) :
  List.length (Sql.select_all rows) = List.length rows.
Proof.
  unfold Sql.select_all. rewrite length_map.
  apply Permutation_length, Permutation_sym, order_by_perm.
Qed.

End MetricsOfTable.

(** X16. The metrics describe what is stored. When the storage works, the
    ids are unique, the session shows the table as listed and the editor
    keeps the rows in place and the disabled columns as they are, the
    section of the existing tickets returns normally, and the metrics it
    shows for a table with rows are the numbers of stored rows with
    status Open, In Progress and Closed after the edits were saved. *)
Theorem metrics_describe_the_table (editor : DataFrame -> DataFrame)
  (s : State) :
  well_kept s ->
  respects_disabled editor ->
  tickets s <> [] ->
  let (r, s') := existing_tickets editor s in
  r = Ok (List.length (tickets s),
          Some (mkMetrics (count_rows "Open" (tickets s'))
                          (count_rows "In Progress" (tickets s'))
                          (count_rows "Closed" (tickets s')))).
Proof.
  intros (Hrel & Hnodup & Hsync) Hed Hne.
  assert (Hlen : List.length (session_df s) = List.length (tickets s)).
  { rewrite Hsync. apply select_all_length. }
  unfold existing_tickets, bind at 1, get_session_df. cbv zeta.
  destruct (0 <? List.length (session_df s))%nat eqn:E.
  - destruct (reconcile_in_sync (editor (session_df s)) s Hnodup Hsync
                (Hed (session_df s)) Hrel) as (s' & Hrun & Hl & _).
    unfold bind. rewrite Hrun. unfold ret, statistics.
    rewrite <- Hl, !count_status_select_all, Hlen. reflexivity.
  - apply Nat.ltb_ge in E. destruct (tickets s); [congruence|].
    simpl in Hlen. lia.
Qed.

Lemma metrics_describe_the_table_witness :
  let rows := [mkRow "TICKET-1001" "a" "Open" "Low" "d1" 10;
               mkRow "TICKET-1002" "b" "Open" "High" "d2" 20] in
  let editor := map (fun t => mkTicket (ID t) (Issue t) "Closed" (Priority t)
                                       (Date_Submitted t)) in
  let (r, s') := existing_tickets editor (quiet rows (Sql.select_all rows)) in
  r = Ok (List.length rows,
          Some (mkMetrics (count_rows "Open" (tickets s'))
                          (count_rows "In Progress" (tickets s'))
                          (count_rows "Closed" (tickets s')))).
Proof.
  cbv zeta.
  apply (metrics_describe_the_table
           (map (fun t => mkTicket (ID t) (Issue t) "Closed" (Priority t)
                                   (Date_Submitted t)))
           (quiet [mkRow "TICKET-1001" "a" "Open" "Low" "d1" 10;
                   mkRow "TICKET-1002" "b" "Open" "High" "d2" 20]
              (Sql.select_all
                 [mkRow "TICKET-1001" "a" "Open" "Low" "d1" 10;
                  mkRow "TICKET-1002" "b" "Open" "High" "d2" 20]))).
  - repeat split.
    + constructor.
    + simpl. repeat constructor; simpl; intuition discriminate.
  - intros df. induction df; cbn [map]; constructor; [repeat split|assumption].
  - discriminate.
Defined.
